(** * jupyter_collaboration: the WebSocket handler and the session endpoint

    A shallow embedding of [jupyter_collaboration/handlers.py]: the
    per-connection [YDocWebSocketHandler] (room lookup and creation, session
    check, message queue, awareness directory, delayed room cleanup) and the
    [DocSessionHandler.put] endpoint.

    Python objects are kept in explicit stores: room objects live in a heap
    indexed by their reference, the handler objects and the asyncio tasks in
    tables of their own, so that two handlers holding the same room share it.
    A method [m(self, ...)] becomes a computation [m self ...] in a state
    monad over the whole [World]; an exception leaves the state as mutated up
    to the raising statement, as in Python. *)

From Stdlib Require Import ZArith List Lia.
From Stdlib Require Import Strings.String Strings.Ascii Strings.Byte.
From stdpp Require Import base option list gmap strings.

Local Open Scope Z_scope.
Set Warnings "-register-all".

(** ** Python values *)

Module Py.

(** The exceptions the modelled code can raise. *)
Inductive Exn :=
| IndexError
| KeyError (key : string)
| TypeError
| ValueError
| AttributeError (attr : string)
| AssertionError
| RuntimeError (msg : string)
| StopAsyncIteration
| HTTPError (status : Z) (log_message : string).

(** The result of running a piece of code up to its end or its first
    suspension: a value, an exception, or [Blocked] when it waits at an
    [await] that cannot complete yet. *)
Inductive Outcome (A : Type) :=
| Ok (a : A)
| Raise (e : Exn)
| Blocked.
Arguments Ok {A} a.
Arguments Raise {A} e.
Arguments Blocked {A}.

(** [bytes] are lists of [byte]; equality on them is decidable. *)
#[export] Instance byte_eq_dec : EqDecision byte := Byte.byte_eq_dec.

(** JSON documents, as [json.loads] returns them; an object keeps its
    members in order, and a lookup finds the first member of that name. *)
Inductive json :=
| JNull
| JBool (b : bool)
| JNum (z : Z)
| JStr (s : string)
| JArr (items : list json)
| JObj (members : list (string * json)).

Definition dict := list (string * json).

Fixpoint dict_get (d : dict) (k : string) : option json :=
  match d with
  | [] => None
  | (k', v) :: d' => if String.eqb k' k then Some v else dict_get d' k
  end.

(** [k in d] for a dictionary [d]. *)
Definition dict_contains (d : dict) (k : string) : bool :=
  match dict_get d k with Some _ => true | None => false end.

(** [v[k]] for a string key [k]: a dictionary is looked up, any other JSON
    value refuses a string subscript. *)
Definition subscript (v : json) (k : string) : Outcome json :=
  match v with
  | JObj d => match dict_get d k with
              | Some x => Ok x
              | None => Raise (KeyError k)
              end
  | _ => Raise TypeError
  end.

(** [s.count(c)] for a one-character pattern. *)
Fixpoint count (s : string) (c : ascii) : nat :=
  match s with
  | EmptyString => 0%nat
  | String a s' => ((if Ascii.eqb a c then 1 else 0) + count s' c)%nat
  end.

(** [s.split(c)[-1]]: what follows the last [c] (all of [s] without one). *)
Fixpoint last_segment (s : string) (c : ascii) : string :=
  match s with
  | EmptyString => EmptyString
  | String a s' =>
      if (0 <? count s' c)%nat then last_segment s' c
      else if Ascii.eqb a c then s'
      else s
  end.

(** [s.split(c, 1)] when [c] occurs in [s]: the text before the first [c]
    and the text after it. *)
Fixpoint split_once (s : string) (c : ascii) : option (string * string) :=
  match s with
  | EmptyString => None
  | String a s' =>
      if Ascii.eqb a c then Some (EmptyString, s')
      else match split_once s' c with
           | Some (l, r) => Some (String a l, r)
           | None => None
           end
  end.

(** Truthiness of an optional string argument ([if action:]). *)
Definition truthy (o : option string) : option string :=
  match o with
  | Some EmptyString => None
  | _ => o
  end.

End Py.
Export Py.

Definition colon : ascii := ":"%char.
Definition slash : ascii := "/"%char.
Definition LF : string := String (ascii_of_nat 10) EmptyString.

(** ** What [handlers.py] imports *)

(** [ypy_websocket.yutils.YMessageType]: the first byte of a frame. *)
Module YMessageType.
Definition SYNC : N := 0%N.
Definition AWARENESS : N := 1%N.
End YMessageType.

(** Modelled from the spec: [utils.LogLevel] is not among the sources; the
    observability event carries a level, and the handler uses these two. *)
Inductive LogLevel := INFO | WARNING.

(** Modelled from the spec: [utils.decode_file_path] is not among the
    sources. A document's room identity is the composite key
    [(file_format, file_type, file_id)] serialised with two separators, the
    file id coming last (it may itself hold separators). *)
Definition decode_file_path (path : string) : Outcome (string * string * string) :=
  match split_once path colon with
  | Some (file_format, rest) =>
      match split_once rest colon with
      | Some (file_type, file_id) => Ok (file_format, file_type, file_id)
      | None => Raise ValueError
      end
  | None => Raise ValueError
  end.

(** Modelled from the spec: the Content Loader of [loaders.py] (not among
    the sources), reduced to what the handler reads from it. *)
Record FileLoader := {
  loader_file_id : string;
  loader_path : string;
  number_of_subscriptions : nat;
}.

(** What [Awareness.get_changes] of ypy_websocket returns: the ids of the
    participants that joined and left, and the states found in the update,
    in the order of the update. *)
Record Changes := {
  added : list N;
  removed : list N;
  states : list dict;
}.

(** The update log, [ystore_class(path=..., log=...)]. *)
Record YStore := { ystore_path : string }.

(** The collaborators of the handler that live outside [handlers.py]. *)

(** [jupyter_server_fileid.manager.BaseFileIdManager]. *)
Class BaseFileIdManager (F : Type) := {
  get_id : F → string → option string;
  index : F → string → option string * F;
  get_path : F → string → option string;
}.

(** [loaders.FileLoaderMapping]: the handler tests which loaders serve a
    file id, subscripts the mapping with a room identity (the tests show the
    subscript creating the loader on a miss); a room subscribes when it is
    initialised and gives its subscription up when it is destroyed. *)
Class FileLoaderMapping (L : Type) := {
  get_loaders_from_file_id : L → string → list FileLoader;
  loaders_getitem : L → string → FileLoader * L;
  observe : L → string → L;
  unobserve : L → string → L;
}.

(** The awareness of a room ([YRoom.awareness]); [get_changes] decodes an
    awareness update against it: it returns the changes ([inr]) or raises
    on a payload it cannot decode ([inl]). *)
Class Awareness (A : Type) := {
  new_awareness : A;
  get_changes : A → list byte → (Exn + Changes) * A;
}.

(** The replicated document of a Document Room: the empty document of a
    fresh room, and the content restored from the loader and the update
    log when the room is initialised. *)
Class YDocument (D : Type) := {
  new_document : D;
  restore : FileLoader → YStore → D → D;
}.

(** [pathlib]: the three operations [initialize] uses on the file's path. *)
Class Pathlib := {
  Path_parent : string → string;
  Path_name : string → string;
  Path_joinpath : string → string → string;
}.

(** ** The state of the server process *)

Section Handlers.

Context {F L A D : Type}.
Context `{!BaseFileIdManager F, !FileLoaderMapping L, !Awareness A,
          !YDocument D, !Pathlib}.

(** [SERVER_SESSION = str(uuid.uuid4())], drawn once when the module is
    loaded. *)
Variable SERVER_SESSION : string.

(** What a [DocumentRoom] holds beyond a plain room. [cleaner] is the
    pending cleanup task, [ready] tells whether the room was initialised. *)
Record DocumentRoomData := {
  file_format : string;
  file_type : string;
  file : FileLoader;
  ystore : YStore;
  save_delay : option Z;
  cleaner : option nat;
  ready : bool;
  document : D;
}.

Inductive RoomVariant :=
| DocumentRoom (d : DocumentRoomData)
| TransientRoom.

(** A room object: [clients] is the list of the handlers it serves,
    [relayed] the messages it took from them, oldest first. *)
Record YRoom := {
  room_id : string;
  variant : RoomVariant;
  clients : list nat;
  awareness : A;
  relayed : list (nat * list byte);
}.

(** The attributes of a [YDocWebSocketHandler] that differ from one handler
    to the next (the server, the file id manager and the loaders it is
    given are those of the [World]); [room] is [None] while the attribute
    is unset or after [del self.room]. *)
Record Handler := {
  _room_id : string;
  room : option nat;
  _message_queue : list (list byte);
  _cleanup_delay : option Z;
}.

(** The coroutines the handler turns into tasks, and the life of a task. *)
Inductive Coroutine :=
| Serve (self : nat)
| CleanRoom (self : nat).

Inductive TaskState :=
| Created
| Serving (served : nat)
| Sleeping (wake : Z)
| Cancelled
| Done
| Failed (e : Exn).

Record Task := {
  coro : Coroutine;
  state : TaskState;
}.

(** What leaves the process: observability events, log records (the format
    string only) and the closing of a connection. *)
Record EventData := {
  level : LogLevel;
  event_room : string;
  event_path : option string;
  action : option string;
  msg : option string;
}.

Inductive Effect :=
| Emit (data : EventData)
| Log (severity : string) (fmt : string)
| Close (self : nat) (code : Z) (reason : string).

(** The [JupyterWebsocketServer] singleton: the room registry, the
    directory of connected users and the counters. *)
Record JupyterWebsocketServer := {
  rooms : gmap string nat;
  connected_users : gmap N json;
  ypatch_nb : Z;
  background_tasks : gset nat;
}.

Record World := {
  websocket_server : JupyterWebsocketServer;
  heap : list YRoom;
  handlers : gmap nat Handler;
  tasks : list Task;
  file_loaders : L;
  file_id_manager : F;
  trace : list Effect;
  now : Z;
}.

Definition with_server (f : JupyterWebsocketServer → JupyterWebsocketServer)
    (w : World) : World :=
  {| websocket_server := f (websocket_server w); heap := heap w;
     handlers := handlers w; tasks := tasks w; file_loaders := file_loaders w;
     file_id_manager := file_id_manager w; trace := trace w; now := now w |}.

Definition with_heap (f : list YRoom → list YRoom) (w : World) : World :=
  {| websocket_server := websocket_server w; heap := f (heap w);
     handlers := handlers w; tasks := tasks w; file_loaders := file_loaders w;
     file_id_manager := file_id_manager w; trace := trace w; now := now w |}.

Definition with_handlers (f : gmap nat Handler → gmap nat Handler)
    (w : World) : World :=
  {| websocket_server := websocket_server w; heap := heap w;
     handlers := f (handlers w); tasks := tasks w;
     file_loaders := file_loaders w; file_id_manager := file_id_manager w;
     trace := trace w; now := now w |}.

Definition with_tasks (f : list Task → list Task) (w : World) : World :=
  {| websocket_server := websocket_server w; heap := heap w;
     handlers := handlers w; tasks := f (tasks w);
     file_loaders := file_loaders w; file_id_manager := file_id_manager w;
     trace := trace w; now := now w |}.

Definition with_file_loaders (f : L → L) (w : World) : World :=
  {| websocket_server := websocket_server w; heap := heap w;
     handlers := handlers w; tasks := tasks w;
     file_loaders := f (file_loaders w); file_id_manager := file_id_manager w;
     trace := trace w; now := now w |}.

Definition with_trace (f : list Effect → list Effect) (w : World) : World :=
  {| websocket_server := websocket_server w; heap := heap w;
     handlers := handlers w; tasks := tasks w; file_loaders := file_loaders w;
     file_id_manager := file_id_manager w; trace := f (trace w); now := now w |}.

Definition with_now (f : Z → Z) (w : World) : World :=
  {| websocket_server := websocket_server w; heap := heap w;
     handlers := handlers w; tasks := tasks w; file_loaders := file_loaders w;
     file_id_manager := file_id_manager w; trace := trace w; now := f (now w) |}.

(** ** The monad of the handler's code *)

Definition M (X : Type) : Type := World → Outcome X * World.

#[export] Instance M_ret : MRet M := λ X x w, (Ok x, w).

#[export] Instance M_bind : MBind M := λ X Y k m w,
  match m w with
  | (Ok x, w') => k x w'
  | (Raise e, w') => (Raise e, w')
  | (Blocked, w') => (Blocked, w')
  end.

Definition raise {X} (e : Exn) : M X := λ w, (Raise e, w).
Definition block {X} : M X := λ w, (Blocked, w).
Definition reads {X} (f : World → X) : M X := λ w, (Ok (f w), w).
Definition modify (f : World → World) : M unit := λ w, (Ok tt, f w).
Definition lift {X} (o : Outcome X) : M X := λ w, (o, w).

(** The state a computation leaves behind, and its result. *)
Definition exec {X} (m : M X) (w : World) : World := (m w).2.
Definition result {X} (m : M X) (w : World) : Outcome X := (m w).1.

Definition effect (e : Effect) : M unit := modify (with_trace (λ t, t ++ [e])).
Definition log_info (fmt : string) : M unit := effect (Log "info" fmt).
Definition log_debug (fmt : string) : M unit := effect (Log "debug" fmt).

(** Attribute access on [self]. *)
Definition this (self : nat) : M Handler := λ w,
  match handlers w !! self with
  | Some h => (Ok h, w)
  | None => (Raise (RuntimeError "no such handler"), w)
  end.

Definition self_room (self : nat) : M nat :=
  h ← this self;
  match room h with
  | Some r => mret r
  | None => raise (AttributeError "room")
  end.

Definition set_self_room (self : nat) (r : option nat) : M unit :=
  modify (with_handlers (alter (λ h,
    {| _room_id := _room_id h; room := r;
       _message_queue := _message_queue h;
       _cleanup_delay := _cleanup_delay h |}) self)).

Definition set_message_queue (self : nat) (q : list (list byte)) : M unit :=
  modify (with_handlers (alter (λ h,
    {| _room_id := _room_id h; room := room h; _message_queue := q;
       _cleanup_delay := _cleanup_delay h |}) self)).

(** Room objects: dereference, allocation, field update. *)
Definition deref (r : nat) : M YRoom := λ w,
  match heap w !! r with
  | Some o => (Ok o, w)
  | None => (Raise (RuntimeError "dangling room"), w)
  end.

Definition new_room (o : YRoom) : M nat := λ w,
  (Ok (length (heap w)), with_heap (λ hp, hp ++ [o]) w).

Definition update_room (r : nat) (f : YRoom → YRoom) : M unit :=
  modify (with_heap (λ hp,
    match hp !! r with Some o => <[r := f o]> hp | None => hp end)).

Definition set_clients (cs : list nat) (o : YRoom) : YRoom :=
  {| room_id := room_id o; variant := variant o; clients := cs;
     awareness := awareness o; relayed := relayed o |}.

Definition set_awareness (a : A) (o : YRoom) : YRoom :=
  {| room_id := room_id o; variant := variant o; clients := clients o;
     awareness := a; relayed := relayed o |}.

Definition set_relayed (ms : list (nat * list byte)) (o : YRoom) : YRoom :=
  {| room_id := room_id o; variant := variant o; clients := clients o;
     awareness := awareness o; relayed := ms |}.

Definition set_variant (v : RoomVariant) (o : YRoom) : YRoom :=
  {| room_id := room_id o; variant := v; clients := clients o;
     awareness := awareness o; relayed := relayed o |}.

Definition set_cleaner (c : option nat) (d : DocumentRoomData) : DocumentRoomData :=
  {| file_format := file_format d; file_type := file_type d; file := file d;
     ystore := ystore d; save_delay := save_delay d; cleaner := c;
     ready := ready d; document := document d |}.

Definition set_ready (doc : D) (d : DocumentRoomData) : DocumentRoomData :=
  {| file_format := file_format d; file_type := file_type d; file := file d;
     ystore := ystore d; save_delay := save_delay d; cleaner := cleaner d;
     ready := true; document := doc |}.

(** [isinstance(o, DocumentRoom)]. *)
Definition is_document (o : YRoom) : bool :=
  match variant o with DocumentRoom _ => true | TransientRoom => false end.

(** ** The collaborators inside the process *)

(** Modelled from the spec: the Room Registry of [websocketserver.py] (not
    among the sources). [add_room] fails if the identity already has an
    entry; [delete_room] removes the mapping of the given room and does
    nothing if it is already gone. *)
Definition room_exists (path : string) : M bool :=
  reads (λ w, match rooms (websocket_server w) !! path with
              | Some _ => true
              | None => false
              end).

(** Modelled from the spec: [get_room] of the Room Registry. *)
Definition get_room (path : string) : M nat := λ w,
  match rooms (websocket_server w) !! path with
  | Some r => (Ok r, w)
  | None => (Raise (KeyError path), w)
  end.

Definition set_rooms (f : gmap string nat → gmap string nat)
    (s : JupyterWebsocketServer) : JupyterWebsocketServer :=
  {| rooms := f (rooms s); connected_users := connected_users s;
     ypatch_nb := ypatch_nb s; background_tasks := background_tasks s |}.

(** Modelled from the spec: [add_room] of the Room Registry, which fails
    if the identity already has an entry. *)
Definition add_room (path : string) (r : nat) : M unit := λ w,
  match rooms (websocket_server w) !! path with
  | Some _ => (Raise (RuntimeError "room already registered"), w)
  | None => (Ok tt, with_server (set_rooms (insert path r)) w)
  end.

(** Modelled from the spec: the end of a room ([rooms.py], not among the
    sources). A Document Room that has subscribed to its Content Loader
    releases the subscription when it is destroyed. *)
Definition room_stop (r : nat) : M unit := λ w,
  match heap w !! r with
  | Some o =>
      match variant o with
      | DocumentRoom d =>
          if ready d
          then (Ok tt, with_file_loaders (λ l, unobserve l (room_id o)) w)
          else (Ok tt, w)
      | TransientRoom => (Ok tt, w)
      end
  | None => (Ok tt, w)
  end.

(** Modelled from the spec: [delete_room(room=...)] of the Room Registry,
    which removes the mapping of the room (and does nothing if it is gone)
    and stops the room. *)
Definition delete_room (r : nat) : M unit :=
  modify (with_server (set_rooms (filter (λ kv, kv.2 ≠ r))));;
  room_stop r.

(** [asyncio.create_task] and [Task.cancel]: a task that has not finished
    is cancelled at its next suspension point, so that the rest of its
    coroutine never runs; cancelling a finished task does nothing. *)
Definition create_task (c : Coroutine) : M nat := λ w,
  (Ok (length (tasks w)),
   with_tasks (λ ts, ts ++ [{| coro := c; state := Created |}]) w).

Definition set_state (t : nat) (st : TaskState) : M unit :=
  modify (with_tasks (λ ts,
    match ts !! t with
    | Some k => <[t := {| coro := coro k; state := st |}]> ts
    | None => ts
    end)).

Definition is_pending (st : TaskState) : bool :=
  match st with
  | Created | Serving _ | Sleeping _ => true
  | Cancelled | Done | Failed _ => false
  end.

Definition cancel (t : nat) : M unit := λ w,
  match tasks w !! t with
  | Some k => if is_pending (state k) then set_state t Cancelled w else (Ok tt, w)
  | None => (Ok tt, w)
  end.

(** Modelled from the spec: [DocumentRoom.initialize] of [rooms.py] (not
    among the sources). On the first attach the room loads the content of
    its loader and replays the update log, then subscribes to the loader;
    a room that is already live is left as it is. *)
Definition room_initialize (r : nat) : M unit :=
  o ← deref r;
  match variant o with
  | DocumentRoom d =>
      if ready d then mret tt
      else
        update_room r (set_variant
          (DocumentRoom (set_ready (restore (file d) (ystore d) (document d)) d)));;
        modify (with_file_loaders (λ l, observe l (room_id o)))
  | TransientRoom => mret tt
  end.

(** ** [YDocWebSocketHandler] *)

Definition _emit (self : nat) (lvl : LogLevel) (act message : option string)
    : M unit :=
  h ← this self;
  '(_, _, file_id) ← lift (decode_file_path (_room_id h));
  path ← reads (λ w, get_path (file_id_manager w) file_id);
  effect (Emit {| level := lvl; event_room := _room_id h; event_path := path;
                  action := truthy act; msg := truthy message |}).

Definition conflict_warning : string :=
  "There is another collaborative session accessing the same file." +:+ LF +:+
  "The synchronization between rooms is not supported and you might lose some of your changes.".

Definition new_handler (rid : string) (delay : option Z) : Handler :=
  {| _room_id := rid; room := None; _message_queue := [];
     _cleanup_delay := delay |}.

Definition new_DocumentRoom (rid fmt typ : string) (fl : FileLoader)
    (ys : YStore) (delay : option Z) : YRoom :=
  {| room_id := rid;
     variant := DocumentRoom
       {| file_format := fmt; file_type := typ; file := fl; ystore := ys;
          save_delay := delay; cleaner := None; ready := false;
          document := new_document |};
     clients := []; awareness := new_awareness; relayed := [] |}.

Definition new_TransientRoom (rid : string) : YRoom :=
  {| room_id := rid; variant := TransientRoom; clients := [];
     awareness := new_awareness; relayed := [] |}.

(** [initialize]: the handler object [self] gets its attributes; the room
    is taken from the registry or built and registered. *)
Definition initialize (self : nat) (request_path : string)
    (document_cleanup_delay document_save_delay : option Z) : M unit :=
  let rid := last_segment request_path slash in
  modify (with_handlers (insert self (new_handler rid document_cleanup_delay)));;
  known ← room_exists rid;
  if known : bool then
    r ← get_room rid;
    set_self_room self (Some r)
  else
    (if (2 <=? count rid colon)%nat then
       '(fmt, typ, file_id) ← lift (decode_file_path rid);
       others ← reads (λ w, get_loaders_from_file_id (file_loaders w) file_id);
       match others with
       | [] => mret tt
       | _ :: _ => _emit self WARNING None (Some conflict_warning)
       end;;
       fl ← (λ w, let (fl, l) := loaders_getitem (file_loaders w) rid in
                  (Ok fl, with_file_loaders (λ _, l) w));
       path ← reads (λ w, get_path (file_id_manager w) file_id);
       path ← match path with
              | Some p => mret p
              | None => raise TypeError
              end;
       let updates_file_path :=
         Path_joinpath (Path_parent path)
                       ("." +:+ typ +:+ ":" +:+ Path_name path +:+ ".y") in
       let ys := {| ystore_path := updates_file_path |} in
       r ← new_room (new_DocumentRoom rid fmt typ fl ys document_save_delay);
       set_self_room self (Some r)
     else
       r ← new_room (new_TransientRoom rid);
       set_self_room self (Some r));;
    r ← self_room self;
    add_room rid r.

(** The [path] property and the two constants of the handler. *)
Definition path (self : nat) : M string :=
  h ← this self; mret (_room_id h).

Definition max_message_size : Z := 1024 * 1024 * 1024.

Definition check_origin (origin : string) : bool := true.

Definition set_background_tasks (f : gset nat → gset nat)
    (s : JupyterWebsocketServer) : JupyterWebsocketServer :=
  {| rooms := rooms s; connected_users := connected_users s;
     ypatch_nb := ypatch_nb s; background_tasks := f (background_tasks s) |}.

(** [open]: [sessionId] is the query argument of that name, if given. The
    serve task is created first; the rest runs for a Document Room only. *)
Definition open (self : nat) (sessionId : option string) : M unit :=
  task ← create_task (Serve self);
  modify (with_server (set_background_tasks (union {[ task ]})));;
  r ← self_room self;
  o ← deref r;
  match variant o with
  | DocumentRoom d =>
      let session_id := default "" sessionId in
      (if bool_decide (SERVER_SESSION ≠ session_id)
       then effect (Close self 1003
                      ("Document session " +:+ session_id +:+ " expired"))
       else mret tt);;
      match cleaner d with
      | Some t => cancel t
      | None => mret tt
      end;;
      room_initialize r;;
      _emit self INFO (Some "initialize") (Some "New client connected.")
  | TransientRoom => mret tt
  end.

(** The message queue of the handler ([asyncio.Queue]): [put_nowait]
    appends, [get] takes the oldest entry and waits while there is none. *)
Definition put_nowait (self : nat) (item : list byte) : M unit :=
  h ← this self;
  set_message_queue self (_message_queue h ++ [item]).

Definition queue_get (self : nat) : M (list byte) :=
  h ← this self;
  match _message_queue h with
  | [] => block
  | item :: q => set_message_queue self q;; mret item
  end.

(** [__anext__]: an empty entry ends the iteration. *)
Definition __anext__ (self : nat) : M (list byte) :=
  message ← queue_get self;
  match message with
  | [] => raise StopAsyncIteration
  | _ :: _ => mret message
  end.

Definition recv (self : nat) : M (list byte) := queue_get self.

Definition set_connected_users (f : gmap N json → gmap N json)
    (s : JupyterWebsocketServer) : JupyterWebsocketServer :=
  {| rooms := rooms s; connected_users := f (connected_users s);
     ypatch_nb := ypatch_nb s; background_tasks := background_tasks s |}.

Definition set_ypatch_nb (f : Z → Z)
    (s : JupyterWebsocketServer) : JupyterWebsocketServer :=
  {| rooms := rooms s; connected_users := connected_users s;
     ypatch_nb := f (ypatch_nb s); background_tasks := background_tasks s |}.

(** The first loop of [on_message]: [for i, user in enumerate(added_users)],
    entered at index [i]. *)
Fixpoint join_users (i : nat) (added_users : list N) (sts : list dict)
    : M unit :=
  match added_users with
  | [] => mret tt
  | user :: rest =>
      u ← match sts !! i with
          | Some u => mret u
          | None => raise IndexError
          end;
      (if dict_contains u "user" then
         v ← lift (subscript (JObj u) "user");
         nm ← lift (subscript v "name");
         modify (with_server (set_connected_users (insert user nm)));;
         log_debug "Y user joined: %s"
       else mret tt);;
      join_users (S i) rest sts
  end.

(** The second loop: [for user in removed_users]. *)
Fixpoint leave_users (removed_users : list N) : M unit :=
  match removed_users with
  | [] => mret tt
  | user :: rest =>
      cu ← reads (λ w, connected_users (websocket_server w));
      match cu !! user with
      | Some _ =>
          modify (with_server (set_connected_users (delete user)));;
          log_debug "Y user left: %s"
      | None => mret tt
      end;;
      leave_users rest
  end.

(** [on_message]: the result tells whether the frame was filtered out. *)
Definition on_message (self : nat) (message : list byte) : M bool :=
  match message with
  | [] => raise IndexError
  | message_type :: payload =>
      filtered ←
        (if N.eqb (Byte.to_N message_type) YMessageType.AWARENESS then
           let skip := false in
           r ← self_room self;
           o ← deref r;
           changes ← (λ w, let (c, a) := get_changes (awareness o) payload in
                           (match c with inr ch => Ok ch | inl e => Raise e end,
                            exec (update_room r (set_awareness a)) w));
           join_users 0 (added changes) (states changes);;
           leave_users (removed changes);;
           if skip then
             log_debug "Filtered out Y message of type: %s";;
             mret true
           else mret false
         else mret false);
      if filtered : bool then mret true
      else
        put_nowait self message;;
        modify (with_server (set_ypatch_nb (λ n, n + 1)));;
        mret false
  end.

(** [on_close]. *)
Definition on_close (self : nat) : M unit :=
  put_nowait self [];;
  r ← self_room self;
  o ← deref r;
  match variant o with
  | DocumentRoom d =>
      if bool_decide (clients o = [self]) then
        log_info "Cleaning room: %s";;
        t ← create_task (CleanRoom self);
        update_room r (set_variant (DocumentRoom (set_cleaner (Some t) d)))
      else mret tt
  | TransientRoom => mret tt
  end.

(** [_clean_room] up to its [await asyncio.sleep]: the result is the delay
    it goes to sleep for, or [None] when it has returned. *)
Definition _clean_room (self : nat) : M (option Z) :=
  r ← self_room self;
  o ← deref r;
  if is_document o then
    h ← this self;
    mret (_cleanup_delay h)
  else raise AssertionError.

(** [_clean_room] from the end of its sleep on. The handler class has no
    attribute [files], so [del self.files[...]] raises. *)
Definition _clean_room_resumed (self : nat) : M unit :=
  r ← self_room self;
  log_info "Deleting Y document from memory: %s";;
  delete_room r;;
  set_self_room self None;;
  log_info "Room %s deleted";;
  _emit self INFO (Some "clean") (Some "Room deleted.");;
  h ← this self;
  fl ← (λ w, let (fl, l) := loaders_getitem (file_loaders w) (_room_id h) in
             (Ok fl, with_file_loaders (λ _, l) w));
  if (number_of_subscriptions fl =? 0)%nat then
    log_info "Deleting file %s";;
    (raise (AttributeError "files") : M unit);;
    _emit self INFO (Some "clean") (Some "Loader deleted.")
  else mret tt.

(** ** The event loop *)

(** Modelled from the spec: [JupyterWebsocketServer.serve] (not among the
    sources). The adapter registers itself as a client of the room found
    under its [path], relays the messages it yields one at a time, and
    leaves the room when its stream ends. *)
Definition serve_attach (self : nat) : M nat :=
  p ← path self;
  r ← get_room p;
  o ← deref r;
  update_room r (set_clients (clients o ++ [self]));;
  mret r.

(** Modelled from the spec: the relay of one message of [serve]. *)
Definition serve_relay (self r : nat) (message : list byte) : M unit :=
  o ← deref r;
  update_room r (set_relayed (relayed o ++ [(self, message)])).

(** Modelled from the spec: the end of [serve], when the stream of the
    adapter has ended. *)
Definition serve_detach (self r : nat) : M unit :=
  o ← deref r;
  update_room r (set_clients (filter (λ c, c ≠ self) (clients o))).

(** [task.add_done_callback(background_tasks.discard)]: a serve task
    that ends leaves the set of background tasks. *)
Definition serve_done (t : nat) (st : TaskState) : M unit :=
  set_state t st;;
  modify (with_server (set_background_tasks (λ b, b ∖ {[ t ]}))).

(** One turn of a task: it runs from where it is suspended to its next
    suspension point or to its end. A sleeping task resumes once its wake
    time is reached; a cancelled or finished task does nothing. *)
Definition run_task (t : nat) : M unit := λ w,
  match tasks w !! t with
  | Some {| coro := CleanRoom self; state := Created |} =>
      match _clean_room self w with
      | (Ok None, w') => set_state t Done w'
      | (Ok (Some d), w') => set_state t (Sleeping (now w' + Z.max 0 d)) w'
      | (Raise e, w') => set_state t (Failed e) w'
      | (Blocked, w') => (Ok tt, w')
      end
  | Some {| coro := CleanRoom self; state := Sleeping wake |} =>
      if wake <=? now w then
        match _clean_room_resumed self w with
        | (Ok _, w') => set_state t Done w'
        | (Raise e, w') => set_state t (Failed e) w'
        | (Blocked, w') => (Ok tt, w')
        end
      else (Ok tt, w)
  | Some {| coro := Serve self; state := Created |} =>
      match serve_attach self w with
      | (Ok r, w') => set_state t (Serving r) w'
      | (Raise e, w') => serve_done t (Failed e) w'
      | (Blocked, w') => (Ok tt, w')
      end
  | Some {| coro := Serve self; state := Serving r |} =>
      match __anext__ self w with
      | (Ok message, w') => serve_relay self r message w'
      | (Raise StopAsyncIteration, w') =>
          (serve_detach self r;; serve_done t Done) w'
      | (Raise e, w') => serve_done t (Failed e) w'
      | (Blocked, w') => (Ok tt, w')
      end
  | _ => (Ok tt, w)
  end.

(** Time passing while no task runs. *)
Definition sleep (dt : Z) : M unit := modify (with_now (λ t, t + Z.max 0 dt)).

(** ** What the properties are stated with *)

Definition registered (w : World) (rid : string) : option nat :=
  rooms (websocket_server w) !! rid.

Definition connected (rid : string) (r : nat) (cd : option Z) : Handler :=
  {| _room_id := rid; room := Some r; _message_queue := [];
     _cleanup_delay := cd |}.

Definition event (lvl : LogLevel) (rid : string) (p : option string)
    (act message : option string) : Effect :=
  Emit {| level := lvl; event_room := rid; event_path := p;
          action := truthy act; msg := truthy message |}.

(** The warning [initialize] emits when other loaders serve the file. *)
Definition conflict_events (w : World) (rid fid : string) : list Effect :=
  match get_loaders_from_file_id (file_loaders w) fid with
  | [] => []
  | _ :: _ => [event WARNING rid (get_path (file_id_manager w) fid) None
                 (Some conflict_warning)]
  end.

(** What a world keeps when only the loaders and the trace change. *)
Definition same_rooms (w1 w2 : World) : Prop :=
  websocket_server w1 = websocket_server w2 ∧ heap w1 = heap w2 ∧
  handlers w1 = handlers w2 ∧ tasks w1 = tasks w2.

Record Connection := {
  conn_self : nat;
  conn_path : string;
  conn_cleanup_delay : option Z;
  conn_save_delay : option Z;
}.

Definition connect (c : Connection) : M unit :=
  initialize (conn_self c) (conn_path c) (conn_cleanup_delay c)
             (conn_save_delay c).

Definition connect_all (cs : list Connection) (w : World) : World :=
  foldl (λ w c, exec (connect c) w) w cs.

(** The room identity a connection asks for. *)
Definition identity (c : Connection) : string :=
  last_segment (conn_path c) slash.

(** The room objects constructed between two states of the server (room
    objects are never freed in this model, so these are the objects the
    heap has gained), and those constructed for one identity. *)
Definition constructed (w w' : World) : list YRoom :=
  drop (length (heap w)) (heap w').

Definition constructed_for (w w' : World) (rid : string) : list YRoom :=
  filter (λ o, room_id o = rid) (constructed w w').

(** A room can be built for the identity: it names a Transient Room, or a
    Document Room whose file id the file id manager resolves to a path. *)
Definition resolvable (w : World) (rid : string) : bool :=
  if (2 <=? count rid colon)%nat then
    match decode_file_path rid with
    | Ok (_, _, file_id) =>
        match get_path (file_id_manager w) file_id with
        | Some _ => true
        | None => false
        end
    | _ => false
    end
  else true.

Definition serve_task (self : nat) : Task := {| coro := Serve self; state := Created |}.

(** The world once [open] has created its serve task. *)
Definition opened (self : nat) (w : World) : World :=
  with_server (set_background_tasks (union {[ length (tasks w) ]}))
    (with_tasks (λ ts, ts ++ [serve_task self]) w).

(** The world after [Task.cancel]. *)
Definition cancelled (t : nat) (w : World) : World :=
  match tasks w !! t with
  | Some k =>
      if is_pending (state k)
      then with_tasks (<[t := {| coro := coro k; state := Cancelled |}]>) w
      else w
  | None => w
  end.

(** The world after [DocumentRoom.initialize]. *)
Definition initialized (r : nat) (o : YRoom) (d : DocumentRoomData)
    (w : World) : World :=
  if ready d then w
  else
    with_file_loaders (λ l, observe l (room_id o))
      (with_heap (<[r := set_variant (DocumentRoom
         (set_ready (restore (file d) (ystore d) (document d)) d)) o]>) w).

(** What [open] sends to the connection when the session is refused. *)
Definition session_check (self : nat) (sessionId : option string)
    : list Effect :=
  let session_id := default "" sessionId in
  if bool_decide (SERVER_SESSION ≠ session_id)
  then [Close self 1003 ("Document session " +:+ session_id +:+ " expired")]
  else [].

Definition cancel_cleaner (d : DocumentRoomData) (w : World) : World :=
  match cleaner d with
  | Some t => cancelled t w
  | None => w
  end.

(** The handler once [on_close] has put the end-of-stream entry. *)
Definition enqueue (item : list byte) (h : Handler) : Handler :=
  {| _room_id := _room_id h; room := room h;
     _message_queue := _message_queue h ++ [item];
     _cleanup_delay := _cleanup_delay h |}.

(** The handler after [del self.room]. *)
Definition forget_room (h : Handler) : Handler :=
  {| _room_id := _room_id h; room := None;
     _message_queue := _message_queue h;
     _cleanup_delay := _cleanup_delay h |}.

Definition cleanup_task (self : nat) : Task :=
  {| coro := CleanRoom self; state := Created |}.

(** The world once [on_close] has scheduled the cleanup of room [r]. *)
Definition cleanup_scheduled (self r : nat) (o : YRoom) (d : DocumentRoomData)
    (w : World) : World :=
  with_heap (<[r := set_variant
                 (DocumentRoom (set_cleaner (Some (length (tasks w))) d)) o]>)
    (with_tasks (λ ts, ts ++ [cleanup_task self])
      (with_trace (λ t, t ++ [Log "info" "Cleaning room: %s"]) w)).

(** Letting time pass and giving task [t] a turn, again and again. *)
Definition wait_and_run (t : nat) (dts : list Z) (w : World) : World :=
  foldl (λ w dt, exec (sleep dt;; run_task t) w) w dts.

(** The display name a state carries: the ["name"] of its ["user"]. *)
Definition display_name (u : dict) : option json :=
  match dict_get u "user" with
  | Some (JObj v) => dict_get v "name"
  | _ => None
  end.

(** A state is well formed when its ["user"], if it has one, is an object
    with a ["name"]. *)
Definition well_formed_state (u : dict) : bool :=
  match dict_get u "user" with
  | None => true
  | Some (JObj v) => dict_contains v "name"
  | Some _ => false
  end.

Definition well_formed (ch : Changes) : bool :=
  (length (added ch) <=? length (states ch))%nat &&
  forallb well_formed_state (take (length (added ch)) (states ch)).

(** The directory after the two loops of [on_message] when no state
    makes them raise. The first loop pairs the i-th added participant
    with the i-th state of the update, as [changes["states"][i]] does:
    the participant is inserted under the name that state carries, if it
    carries one. The second loop deletes every removed participant. *)
Fixpoint directory_join (added_users : list N) (sts : list dict)
    (cu : gmap N json) : gmap N json :=
  match added_users, sts with
  | user :: rest, u :: sts' =>
      directory_join rest sts'
        (match display_name u with
         | Some nm => <[user := nm]> cu
         | None => cu
         end)
  | _, _ => cu
  end.

Definition directory_leave (removed_users : list N) (cu : gmap N json)
    : gmap N json :=
  foldl (λ cu user, delete user cu) cu removed_users.

Definition directory_after (ch : Changes) (cu : gmap N json) : gmap N json :=
  directory_leave (removed ch) (directory_join (added ch) (states ch) cu).

(** A world whose directory became [cu] and whose trace grew by [evs]. *)
Definition directory_set (cu : gmap N json) (evs : list Effect) (w : World)
    : World :=
  with_trace (λ t, t ++ evs) (with_server (set_connected_users (λ _, cu)) w).

Definition is_awareness (message_type : byte) : bool :=
  N.eqb (Byte.to_N message_type) YMessageType.AWARENESS.

(** The world once [on_message] has queued the frame. *)
Definition queued (self : nat) (message : list byte) (h : Handler)
    (w : World) : World :=
  with_server (set_ypatch_nb (λ n, n + 1))
    (with_handlers (insert self (enqueue message h)) w).

Definition dequeue (h : Handler) : Handler :=
  {| _room_id := _room_id h; room := room h;
     _message_queue := tail (_message_queue h);
     _cleanup_delay := _cleanup_delay h |}.

(** What happens on a connection: a frame arrives, the connection closes,
    or the room's relay loop asks for the next message. *)
Inductive QueueOp :=
| Receive (message : list byte)
| Hangup
| Next.

(** The stream the relay loop sees: [arrived] lists the entries put into
    the queue, [yielded] the messages the iterator gave to the loop, and
    [ended] tells whether the iterator has raised [StopAsyncIteration]
    (after which the loop never asks again). *)
Record Stream := {
  arrived : list (list byte);
  yielded : list (list byte);
  ended : bool;
}.

Definition relay_step (self : nat) (ws : World * Stream) (op : QueueOp)
    : World * Stream :=
  let (w, s) := ws in
  match op with
  | Receive message =>
      match on_message self message w with
      | (Ok false, w') =>
          (w', {| arrived := arrived s ++ [message]; yielded := yielded s;
                  ended := ended s |})
      | (_, w') => (w', s)
      end
  | Hangup =>
      (exec (on_close self) w,
       {| arrived := arrived s ++ [[]]; yielded := yielded s;
          ended := ended s |})
  | Next =>
      if ended s then (w, s)
      else
        match __anext__ self w with
        | (Ok message, w') =>
            (w', {| arrived := arrived s; yielded := yielded s ++ [message];
                    ended := false |})
        | (Raise StopAsyncIteration, w') =>
            (w', {| arrived := arrived s; yielded := yielded s;
                    ended := true |})
        | (_, w') => (w', s)
        end
  end.

Definition relay (self : nat) (ops : list QueueOp) (w : World)
    : World * Stream :=
  foldl (relay_step self) (w, {| arrived := []; yielded := []; ended := false |}) ops.


(** The entries the iterator has taken from the queue. *)
Definition consumed (s : Stream) : list (list byte) :=
  yielded s ++ (if ended s then [[]] else []).

Definition queue_ok (self : nat) (ws : World * Stream) : Prop :=
  ∃ h, handlers ws.1 !! self = Some h ∧
       arrived ws.2 = consumed ws.2 ++ _message_queue h ∧
       Forall (λ m, m ≠ []) (yielded ws.2).

(** What an operation is to put in the queue: the frame passed to
    [on_message], unless it is empty ([message[0]] raises on an empty
    frame), and the end-of-stream entry of [on_close]. *)
Definition queue_entry (op : QueueOp) : option (list byte) :=
  match op with
  | Receive [] => None
  | Receive message => Some message
  | Hangup => Some []
  | Next => None
  end.

Definition entries (ops : list QueueOp) : list (list byte) :=
  omap queue_entry ops.



End Handlers.

(** ** [DocSessionHandler] *)

Section Session.

Context {F : Type} `{!BaseFileIdManager F}.

Variable SERVER_SESSION : string.

(** [repr] of a string, as [{path!r}] formats it. *)
Variable repr : string → string.

(** What [put] answers: the status set on the response and the JSON
    document it finishes with. *)
Record Response := {
  status : Z;
  data : json;
}.

Definition session_data (format content_type : json) (idx : string) : json :=
  JObj [("format", format); ("type", content_type);
        ("fileId", JStr idx); ("sessionId", JStr SERVER_SESSION)].

(** [put], past its two decorators: [body] is [json.loads(self.request.body)]
    and the state is the file id manager of the settings. The two log
    records are left out. *)
Definition put (body : json) (path : string) (file_id_manager : F)
    : Outcome Response * F :=
  match subscript body "format" with
  | Ok format =>
      match subscript body "type" with
      | Ok content_type =>
          match get_id file_id_manager path with
          | Some idx =>
              (Ok {| status := 200;
                     data := session_data format content_type idx |},
               file_id_manager)
          | None =>
              let (idx, file_id_manager') := index file_id_manager path in
              match idx with
              | None =>
                  (Raise (HTTPError 404
                            ("File " +:+ repr path +:+ " does not exist")),
                   file_id_manager')
              | Some idx =>
                  (Ok {| status := 201;
                         data := session_data format content_type idx |},
                   file_id_manager')
              end
          end
      | Raise e => (Raise e, file_id_manager)
      | Blocked => (Blocked, file_id_manager)
      end
  | Raise e => (Raise e, file_id_manager)
  | Blocked => (Blocked, file_id_manager)
  end.

(** [n] further calls with the same body and path: the answers, oldest
    first, and the manager they leave. *)
Fixpoint put_again (n : nat) (body : json) (path : string) (file_id_manager : F)
    : list (Outcome Response) * F :=
  match n with
  | O => ([], file_id_manager)
  | S n' =>
      let (answer, m1) := put body path file_id_manager in
      let (answers, m2) := put_again n' body path m1 in
      (answer :: answers, m2)
  end.

(** What the session endpoint relies on from the file id manager: an id
    that [index] has given is the one [get_id] finds afterwards, and
    [index] leaves the manager as it is when the file does not exist. *)
Class FileIdContract := {
  index_then_get_id : ∀ (m m' : F) p i,
    index m p = (Some i, m') → get_id m' p = Some i;
  index_missing : ∀ (m m' : F) p, index m p = (None, m') → m' = m;
}.

End Session.

(** ** The transport side of the handler *)

Section Transport.

Context {F L A D : Type}.
Context `{!BaseFileIdManager F, !FileLoaderMapping L, !Awareness A,
          !YDocument D, !Pathlib}.

(** [WebSocketHandler.get] of Tornado, which upgrades the connection, and
    [write_message], which may raise on a closed connection. *)
Variable upgrade : nat → @M F L A D unit.
Variable write_message : nat → list byte → @M F L A D unit.

(** [try: body except Exception as e: handler(e)]: the state is the one
    the body left when it raised. *)
Definition try_except {X} (body : @M F L A D X) (handler : Exn → @M F L A D X)
    : @M F L A D X := λ w,
  match body w with
  | (Raise e, w') => handler e w'
  | other => other
  end.

(** [get]: [current_user] is what [self.get_current_user()] returns. *)
Definition get (self : nat) (current_user : option string) : @M F L A D unit :=
  match current_user with
  | None =>
      effect (Log "warning" "Couldn't authenticate WebSocket connection");;
      raise (HTTPError 403 "")
  | Some _ => upgrade self
  end.

(** [send]. *)
Definition send (self : nat) (message : list byte) : @M F L A D unit :=
  try_except (write_message self message)
             (λ e, log_debug "Failed to write message").

(** [__aiter__]: the handler is its own iterator. *)
Definition __aiter__ (self : nat) : nat := self.

End Transport.

(** ** Concrete collaborators

    Small implementations of the outside interfaces, in the manner of the
    fakes of [tests/test_loaders.py]; the examples below run the handler
    against them. *)

Module Fake.

(** A file id manager over a set of existing paths: [records] lists the
    indexed [(id, path)] pairs, newest first, and the next id is the number
    of records written as a string of strokes. *)
Record FileIds := {
  on_disk : list string;
  records : list (string * string);
}.

Fixpoint strokes (n : nat) : string :=
  match n with
  | O => "id"
  | S n' => String "'" (strokes n')
  end.

Fixpoint find_path (rs : list (string * string)) (p : string)
    : option string :=
  match rs with
  | [] => None
  | (i, p') :: rs' => if String.eqb p' p then Some i else find_path rs' p
  end.

Fixpoint find_id (rs : list (string * string)) (i : string) : option string :=
  match rs with
  | [] => None
  | (i', p) :: rs' => if String.eqb i' i then Some p else find_id rs' i
  end.

Definition id_of (m : FileIds) (p : string) : option string :=
  find_path (records m) p.

Definition path_of (m : FileIds) (i : string) : option string :=
  find_id (records m) i.

#[export] Instance file_ids : BaseFileIdManager FileIds := {
  get_id m p := if bool_decide (p ∈ on_disk m) then id_of m p else None;
  index m p :=
    if bool_decide (p ∈ on_disk m) then
      match id_of m p with
      | Some i => (Some i, m)
      | None =>
          let i := strokes (length (records m)) in
          (Some i, {| on_disk := on_disk m; records := (i, p) :: records m |})
      end
    else (None, m);
  get_path m i := path_of m i;
}.

(** A loader mapping keyed by what it is subscripted with; a loader made
    on a miss serves the file id decoded from the key. *)
Definition key_file_id (key : string) : string :=
  match decode_file_path key with
  | Ok (_, _, file_id) => file_id
  | _ => key
  end.

Definition touch (n : nat) (fl : FileLoader) : FileLoader :=
  {| loader_file_id := loader_file_id fl; loader_path := loader_path fl;
     number_of_subscriptions := n + number_of_subscriptions fl |}.

#[export] Instance loaders : FileLoaderMapping (gmap string FileLoader) := {
  get_loaders_from_file_id l file_id :=
    filter (λ fl, loader_file_id fl = file_id) (snd <$> map_to_list l);
  loaders_getitem l key :=
    match l !! key with
    | Some fl => (fl, l)
    | None =>
        let fl := {| loader_file_id := key_file_id key; loader_path := "";
                     number_of_subscriptions := 0 |} in
        (fl, <[key := fl]> l)
    end;
  observe l key := alter (touch 1) key l;
  unobserve l key :=
    alter (λ fl, {| loader_file_id := loader_file_id fl;
                    loader_path := loader_path fl;
                    number_of_subscriptions :=
                      Nat.pred (number_of_subscriptions fl) |}) key l;
}.

(** An awareness that decodes by a fixed table from payloads to changes. *)
Definition decoder := list (list byte * Changes).

Fixpoint decode (tbl : decoder) (payload : list byte) : Exn + Changes :=
  match tbl with
  | [] => inl ValueError
  | (p, c) :: tbl' =>
      if bool_decide (p = payload) then inr c else decode tbl' payload
  end.

Definition table_awareness (tbl : decoder) : Awareness unit := {|
  new_awareness := tt;
  get_changes _ payload := (decode tbl payload, tt);
|}.

(** A document that only counts how often it was restored. *)
#[export] Instance counter_document : YDocument nat := {
  new_document := 0%nat;
  restore _ _ n := S n;
}.

(** Paths without directories: the parent is the current directory. *)
#[export] Instance flat_paths : Pathlib := {
  Path_parent _ := ".";
  Path_name p := p;
  Path_joinpath d f := f;
}.

End Fake.

(** ** A server to run the handler on

    One notebook on disk, already indexed under the file id ["abc"], and
    three awareness payloads the rooms can decode: participant 7 joining as
    alice, participant 7 leaving, and participant 9 joining with a user
    that has no name. *)

Module Scenario.
Import Fake.

Definition SESSION : string := "c0ffee".

Definition notebook : string := "json:notebook:abc".
Definition as_text : string := "text:file:abc".
Definition lobby : string := "JupyterLab:globalAwareness".

Definition url (rid : string) : string := "/api/collaboration/room/" +:+ rid.

Definition join_payload : list byte := [x01; x07; x01].
Definition leave_payload : list byte := [x01; x07; x02].
Definition nameless_payload : list byte := [x01; x09; x01].

Definition alice : dict := [("user", JObj [("name", JStr "alice")])].
Definition nameless : dict := [("user", JObj [])].

Definition frames : decoder :=
  [(join_payload, {| added := [7%N]; removed := []; states := [alice] |});
   (leave_payload, {| added := []; removed := [7%N]; states := [] |});
   (nameless_payload,
    {| added := [9%N]; removed := []; states := [nameless] |})].

#[export] Instance awareness_of_frames : Awareness unit :=
  table_awareness frames.

Definition Server : Type := @World FileIds (gmap string FileLoader) unit nat.

Definition start : Server :=
  {| websocket_server :=
       {| rooms := ∅; connected_users := ∅; ypatch_nb := 0;
          background_tasks := ∅ |};
     heap := []; handlers := ∅; tasks := []; file_loaders := ∅;
     file_id_manager :=
       {| on_disk := ["nb.ipynb"]; records := [("abc", "nb.ipynb")] |};
     trace := []; now := 0 |}.

(** Handler 1 connects to the notebook with the current session; its
    serve task (task 0) has had its first turn. *)
Definition live : Server :=
  exec (initialize 1%nat (url notebook) (Some 60) (Some 1);;
        open SESSION 1%nat (Some SESSION);;
        run_task 0%nat) start.

(** Handler 1 has closed, its serve task has ended, the cleanup task
    (task 1) sleeps; ten seconds later handler 2 is initialised for the
    same notebook. *)
Definition reconnecting : Server :=
  exec (on_close 1%nat;;
        run_task 0%nat;;
        run_task 1%nat;;
        sleep 10;;
        initialize 2%nat (url notebook) (Some 60) (Some 1)) live.

(** The room of the notebook gives up its subscription to the loader. *)
Definition release (l : gmap string FileLoader) : gmap string FileLoader :=
  alter (λ fl, {| loader_file_id := loader_file_id fl;
                  loader_path := loader_path fl;
                  number_of_subscriptions := 0 |}) notebook l.

(** Handler 1 has closed and nobody came back: the grace period is over
    and the loader of the notebook has no subscription left. *)
Definition expired : Server :=
  with_file_loaders release
    (exec (on_close 1%nat;;
           run_task 0%nat;;
           run_task 1%nat;;
           sleep 60) live).

(** Handler 3 is initialised for the lobby, a Transient Room. *)
Definition in_lobby : Server :=
  exec (initialize 3%nat (url lobby) (Some 60) (Some 1)) start.

(** A session endpoint: [repr] puts the path between quotes. *)
Definition quoted (s : string) : string := "'" +:+ s +:+ "'".

Definition disk : FileIds :=
  {| on_disk := ["nb.ipynb"; "notes.md"]; records := [] |}.

Definition request : json :=
  JObj [("format", JStr "json"); ("type", JStr "notebook")].

(** Three callers, two of them for the notebook. *)
Definition callers : list Connection :=
  [{| conn_self := 1; conn_path := url notebook;
      conn_cleanup_delay := Some 60; conn_save_delay := Some 1 |};
   {| conn_self := 2; conn_path := url notebook;
      conn_cleanup_delay := Some 60; conn_save_delay := Some 1 |};
   {| conn_self := 3; conn_path := url lobby;
      conn_cleanup_delay := Some 60; conn_save_delay := Some 1 |}].

(** What happens on the connection of handler 1: two frames and an empty
    one arrive, the relay loop asks in between, the connection closes,
    one more frame arrives. *)
Definition traffic : list QueueOp :=
  [Receive [x00; x01]; Receive []; Next; Receive (x01 :: join_payload);
   Hangup; Receive [x00; x02]; Next; Next; Next].

End Scenario.

(** ** More situations on the same server *)

Module Visits.
Import Fake Scenario.

(** A Document Room identity whose file id the manager does not know. *)
Definition unknown : string := "json:notebook:zzz".

(** Handler 1 is initialised for the notebook and has not opened yet. *)
Definition knocking : Server :=
  exec (initialize 1%nat (url notebook) (Some 60) (Some 1)) start.

(** Handler 1 is live and one frame has arrived for it. *)
Definition busy : Server := exec (on_message 1%nat [x00; x01]) live.

Definition busy_handler : Handler :=
  enqueue [x00; x01] (connected notebook 0 (Some 60)).

(** Handler 1 has closed and nobody came back: the grace period is over,
    the cleanup task (task 1) is due, and the room still holds its
    subscription to the loader of the notebook. *)
Definition due : Server :=
  exec (on_close 1%nat;;
        run_task 0%nat;;
        run_task 1%nat;;
        sleep 60) live.

(** A payload in which participants 7 and 9 join together, the second
    with a user that has no name. *)
Definition crowd_payload : list byte := [x02; x07; x09].

(** A payload in which bob, a participant the awareness knows already,
    updates his state and alice joins as participant 7: [states] lists
    the states of the update in its order, [added] the new participant
    only. *)
Definition bob : dict := [("user", JObj [("name", JStr "bob")])].

Definition update_and_join_payload : list byte := [x02; x03; x07].

Definition crowd : decoder :=
  (crowd_payload,
   {| added := [7%N; 9%N]; removed := []; states := [alice; nameless] |})
  :: (update_and_join_payload,
      {| added := [7%N]; removed := []; states := [bob; alice] |})
  :: frames.

Definition awareness_of_crowd : Awareness unit := table_awareness crowd.

(** The two ends of the transport: an upgrade that succeeds, and a
    connection that is already closed, on which every write raises. *)
Definition upgraded (self : nat)
    : @M FileIds (gmap string FileLoader) unit nat unit :=
  effect (Log "info" "upgraded").

Definition closed_socket (self : nat) (message : list byte)
    : @M FileIds (gmap string FileLoader) unit nat unit :=
  raise (RuntimeError "WebSocketClosedError").

(** A request body without ["type"]. *)
Definition partial_request : json := JObj [("format", JStr "json")].

(** Handler 2 opens the notebook while handler 1 is its only client, and
    the connection of handler 1 closes before the serve task of handler 2
    (task 1, which [open] has only created) has had its first turn:
    [on_close] finds handler 1 alone in the client list and schedules the
    cleanup task of handler 1 (task 2). The serve tasks then run and the
    cleanup task goes to sleep. Handler 2 closes as the last client: its
    cleanup task (task 3) takes the place of task 2 in [room.cleaner]. *)
Definition two_cleaners : Server :=
  exec (initialize 2%nat (url notebook) (Some 60) (Some 1);;
        open SESSION 2%nat (Some SESSION);;
        on_close 1%nat;;
        run_task 1%nat;;
        run_task 0%nat;;
        run_task 2%nat;;
        on_close 2%nat;;
        run_task 1%nat;;
        run_task 3%nat) live.

(** Ten seconds later handler 3 connects to the notebook and its serve
    task (task 4) makes it a client of the room. *)
Definition came_back : Server :=
  exec (sleep 10;;
        initialize 3%nat (url notebook) (Some 60) (Some 1);;
        open SESSION 3%nat (Some SESSION);;
        run_task 4%nat) two_cleaners.

(** Fifty seconds later the two cleanup tasks get their turn. *)
Definition destroyed_in_use : Server :=
  exec (sleep 50;;
        run_task 3%nat;;
        run_task 2%nat) came_back.

(** Handlers 1 and 2 are clients of the notebook and their connections
    close in the same turn of the event loop, before either serve task
    has run again. *)
Definition both_closed : Server :=
  exec (initialize 2%nat (url notebook) (Some 60) (Some 1);;
        open SESSION 2%nat (Some SESSION);;
        run_task 1%nat;;
        on_close 1%nat;;
        on_close 2%nat;;
        run_task 0%nat;;
        run_task 1%nat) live.

End Visits.

(** ** Properties of the handler *)

Section Theory.

Context {F L A D : Type}.
Context `{!BaseFileIdManager F, !FileLoaderMapping L, !Awareness A,
          !YDocument D, !Pathlib}.

#[local] Abbreviation World := (@World F L A D).
#[local] Abbreviation M := (@M F L A D).
#[local] Abbreviation YRoom := (@YRoom A D).
#[local] Abbreviation DocumentRoomData := (@DocumentRoomData D).

(** [run] executes the monadic code in the goal as far as it is determined:
    it unfolds the monad and the record updates and computes, leaving the
    maps, the arithmetic and the handler's methods folded. *)
Ltac run :=
  repeat (unfold mbind, M_bind, mret, M_ret, modify, reads, raise, lift, block,
            effect, log_info, log_debug, exec, result,
            with_server, with_heap, with_handlers, with_tasks,
            with_file_loaders, with_trace, with_now,
            set_rooms, set_connected_users, set_ypatch_nb,
            set_background_tasks;
          cbn -[insert alter lookup filter union difference length app
                last_segment count decode_file_path Z.add Z.max Z.leb
                Nat.leb Nat.eqb bool_decide
                _emit serve_attach serve_relay serve_detach __anext__
                _clean_room _clean_room_resumed set_state cancel
                room_initialize join_users leave_users put_nowait
                queue_get on_message on_close open initialize run_task]).

Lemma initialize_known self request_path cd sd (w : World) r :
  registered w (last_segment request_path slash) = Some r →
  initialize self request_path cd sd w =
    (Ok tt, with_handlers
       (insert self (connected (last_segment request_path slash) r cd)) w).
Proof.
  intros E. unfold registered in E. unfold initialize.
  unfold mbind, M_bind, modify, room_exists, reads, get_room, set_self_room.
  unfold room_exists, get_room, set_self_room.
  run. rewrite E. run. rewrite E. run. rewrite alter_insert_eq. reflexivity.
Qed.

Lemma decode_file_path_total rid :
  (2 <=? count rid colon)%nat = true →
  ∃ fmt typ fid, decode_file_path rid = Ok (fmt, typ, fid).
Proof.
  assert (Hs : ∀ s, (1 <= count s colon)%nat → ∃ l r, split_once s colon = Some (l, r)
             ∧ count s colon = S (count r colon)).
  { induction s as [|a s IH]; simpl; [lia|].
    destruct (Ascii.eqb a colon) eqn:Ea; [by eauto|].
    simpl. intros Hc. destruct (IH Hc) as (l & r & -> & ->). eauto. }
  intros Hc. apply Nat.leb_le in Hc. unfold decode_file_path.
  destruct (Hs rid) as (l & r & -> & Hr); [lia|].
  destruct (Hs r) as (l' & r' & -> & _); [lia|]. eauto.
Qed.

Lemma _emit_ok self lvl act message (w : World) h fmt typ fid :
  handlers w !! self = Some h →
  decode_file_path (_room_id h) = Ok (fmt, typ, fid) →
  _emit self lvl act message w =
    (Ok tt, with_trace (λ t, t ++ [event lvl (_room_id h)
                        (get_path (file_id_manager w) fid) act message]) w).
Proof.
  intros Hh Hd. unfold _emit, this. run. rewrite Hh. run. rewrite Hd. run.
  reflexivity.
Qed.

Lemma initialize_document self request_path cd sd (w : World) fmt typ fid p :
  let rid := last_segment request_path slash in
  registered w rid = None →
  (2 <=? count rid colon)%nat = true →
  decode_file_path rid = Ok (fmt, typ, fid) →
  get_path (file_id_manager w) fid = Some p →
  initialize self request_path cd sd w =
    (Ok tt,
     let (fl, l) := loaders_getitem (file_loaders w) rid in
     let ys := {| ystore_path := Path_joinpath (Path_parent p)
                    ("." +:+ typ +:+ ":" +:+ Path_name p +:+ ".y") |} in
     with_server (set_rooms (insert rid (length (heap w))))
       (with_handlers (insert self (connected rid (length (heap w)) cd))
         (with_heap (λ hp, hp ++ [new_DocumentRoom rid fmt typ fl ys sd])
           (with_file_loaders (λ _, l)
             (with_trace (λ t, t ++ conflict_events w rid fid) w))))).
Proof.
  intros rid E E2 Ed Ep. unfold registered in E.
  unfold initialize. fold rid. unfold room_exists, get_room, set_self_room, new_room, self_room, this, add_room, conflict_events.
  run. rewrite E. run. rewrite E2, Ed. run.
  destruct (get_loaders_from_file_id (file_loaders w) fid) as [|x xs] eqn:Eo.
  - destruct (loaders_getitem (file_loaders w) rid) as [fl l] eqn:El. run.
    rewrite ?El. run. rewrite ?Ep. run. rewrite lookup_alter_eq, lookup_insert_eq. run. rewrite E.
    run. rewrite alter_insert_eq, app_nil_r. reflexivity.
  - erewrite _emit_ok; [|apply lookup_insert_eq|exact Ed]. run.
    destruct (loaders_getitem (file_loaders w) rid) as [fl l] eqn:El. run.
    rewrite ?El. run. rewrite ?Ep. run. rewrite lookup_alter_eq, lookup_insert_eq. run. rewrite E.
    run. rewrite alter_insert_eq. reflexivity.
Qed.

Lemma initialize_document_unresolved self request_path cd sd (w : World)
    fmt typ fid :
  let rid := last_segment request_path slash in
  registered w rid = None →
  (2 <=? count rid colon)%nat = true →
  decode_file_path rid = Ok (fmt, typ, fid) →
  get_path (file_id_manager w) fid = None →
  initialize self request_path cd sd w =
    (Raise TypeError,
     with_handlers (insert self (new_handler rid cd))
       (with_file_loaders (λ _, (loaders_getitem (file_loaders w) rid).2)
         (with_trace (λ t, t ++ conflict_events w rid fid) w))).
Proof.
  intros rid E E2 Ed Ep. unfold registered in E.
  unfold initialize. fold rid.
  unfold room_exists, get_room, set_self_room, new_room, self_room, this,
    add_room, conflict_events.
  run. rewrite E. run. rewrite E2, Ed. run.
  destruct (get_loaders_from_file_id (file_loaders w) fid) as [|x xs] eqn:Eo.
  - destruct (loaders_getitem (file_loaders w) rid) as [fl l] eqn:El. run.
    rewrite ?El. run. rewrite ?Ep. run. rewrite app_nil_r. reflexivity.
  - erewrite _emit_ok; [|apply lookup_insert_eq|exact Ed]. run.
    destruct (loaders_getitem (file_loaders w) rid) as [fl l] eqn:El. run.
    rewrite ?El. run. rewrite ?Ep. run. reflexivity.
Qed.

Lemma initialize_transient self request_path cd sd (w : World) :
  let rid := last_segment request_path slash in
  registered w rid = None →
  (2 <=? count rid colon)%nat = false →
  initialize self request_path cd sd w =
    (Ok tt,
     with_server (set_rooms (insert rid (length (heap w))))
       (with_handlers (insert self (connected rid (length (heap w)) cd))
         (with_heap (λ hp, hp ++ [new_TransientRoom rid]) w))).
Proof.
  intros rid E E2. unfold registered in E.
  unfold initialize. fold rid.
  unfold room_exists, get_room, set_self_room, new_room, self_room, this,
    add_room.
  run. rewrite E. run. rewrite E2. run.
  rewrite lookup_alter_eq, lookup_insert_eq. run. rewrite E. run.
  rewrite alter_insert_eq. reflexivity.
Qed.

(** The three ways [initialize] ends. *)
Lemma initialize_cases self request_path cd sd (w : World) :
  let rid := last_segment request_path slash in
  (∃ r, registered w rid = Some r ∧
        initialize self request_path cd sd w =
          (Ok tt, with_handlers (insert self (connected rid r cd)) w))
  ∨ (registered w rid = None ∧ ∃ o w1,
        same_rooms w1 w ∧ room_id o = rid ∧ clients o = [] ∧
        is_document o = (2 <=? count rid colon)%nat ∧
        initialize self request_path cd sd w =
          (Ok tt,
           with_server (set_rooms (insert rid (length (heap w))))
             (with_handlers (insert self (connected rid (length (heap w)) cd))
               (with_heap (λ hp, hp ++ [o]) w1))))
  ∨ (registered w rid = None ∧ ∃ w1,
        same_rooms w1 w ∧
        initialize self request_path cd sd w =
          (Raise TypeError,
           with_handlers (insert self (new_handler rid cd)) w1)).
Proof.
  intros rid. destruct (registered w rid) as [r|] eqn:E.
  { left. exists r. split; [done|]. by apply initialize_known. }
  right. destruct (2 <=? count rid colon)%nat eqn:E2.
  - destruct (decode_file_path_total rid E2) as (fmt & typ & fid & Ed).
    destruct (get_path (file_id_manager w) fid) as [p|] eqn:Ep.
    + left. split; [done|].
      rewrite (initialize_document self request_path cd sd w fmt typ fid p)
        by done.
      fold rid. destruct (loaders_getitem (file_loaders w) rid) as [fl l].
      exists (new_DocumentRoom rid fmt typ fl
                {| ystore_path := Path_joinpath (Path_parent p)
                     ("." +:+ typ +:+ ":" +:+ Path_name p +:+ ".y") |} sd),
             (with_file_loaders (λ _, l)
                    (with_trace (λ t, t ++ conflict_events w rid fid) w)).
      split_and!; rewrite ?E2; done || reflexivity.
    + right. split; [done|].
      rewrite (initialize_document_unresolved self request_path cd sd w
                 fmt typ fid) by done.
      eexists. split; [|reflexivity]. done.
  - left. split; [done|].
    rewrite (initialize_transient self request_path cd sd w) by done.
    exists (new_TransientRoom rid), w. fold rid.
    split_and!; rewrite ?E2; done || reflexivity.
Qed.

(** *** One room per identity *)

(** [initialize] has no suspension point: it runs to its end in one turn
    of the event loop. *)
Lemma initialize_atomic self request_path cd sd (w : World) :
  result (initialize self request_path cd sd) w ≠ Blocked.
Proof.
  unfold result.
  destruct (initialize_cases self request_path cd sd w)
    as [(r & _ & ->)|[(_ & o & w1 & _ & _ & _ & _ & ->)|(_ & w1 & _ & ->)]];
    done.
Qed.

(** An entry of the registry survives [initialize]. *)
Lemma initialize_keeps_registered self request_path cd sd (w : World) rid r :
  registered w rid = Some r →
  registered (exec (initialize self request_path cd sd) w) rid = Some r.
Proof.
  intros Hr. unfold exec.
  destruct (initialize_cases self request_path cd sd w)
    as [(r' & _ & ->)|[(E & o & w1 & (Hs & _) & _ & _ & _ & ->)
                      |(_ & w1 & (Hs & _) & ->)]];
    unfold registered in *; cbn -[insert lookup]; rewrite ?Hs; try done.
  rewrite lookup_insert_ne; [done|]. intros Heq. congruence.
Qed.

(** A successful [initialize] leaves the identity registered and the
    handler holding the registered room. *)
Lemma initialize_registers self request_path cd sd (w : World) :
  result (initialize self request_path cd sd) w = Ok tt →
  let w' := exec (initialize self request_path cd sd) w in
  ∃ r h, registered w' (last_segment request_path slash) = Some r ∧
         handlers w' !! self = Some h ∧ room h = Some r.
Proof.
  unfold exec, result.
  destruct (initialize_cases self request_path cd sd w)
    as [(r' & E & ->)|[(E & o & w1 & (Hs & _) & _ & _ & _ & ->)
                      |(_ & w1 & (Hs & _) & ->)]];
    unfold registered in *; cbn -[insert lookup]; [| |done]; intros _.
  - eexists _, _. rewrite lookup_insert_eq. done.
  - eexists _, _. rewrite !lookup_insert_eq. done.
Qed.

Lemma connect_all_keeps_registered cs (w : World) rid r :
  registered w rid = Some r → registered (connect_all cs w) rid = Some r.
Proof.
  revert w. induction cs as [|c cs IH]; intros w Hw; [done|].
  apply IH. by apply initialize_keeps_registered.
Qed.

(** What one [initialize] does to the registry and to the room objects,
    by the state it starts from: it joins the registered room; or builds
    and registers one room; or, when the file id of a document identity
    does not resolve, fails and builds nothing. The file id manager is
    only read. *)
Lemma initialize_outcome self request_path cd sd (w : World) :
  let rid := last_segment request_path slash in
  let w' := exec (initialize self request_path cd sd) w in
  file_id_manager w' = file_id_manager w ∧
  match registered w rid with
  | Some r =>
      result (initialize self request_path cd sd) w = Ok tt ∧
      heap w' = heap w ∧
      rooms (websocket_server w') = rooms (websocket_server w)
  | None =>
      if resolvable w rid then
        result (initialize self request_path cd sd) w = Ok tt ∧
        ∃ o, heap w' = heap w ++ [o] ∧ room_id o = rid ∧
             is_document o = (2 <=? count rid colon)%nat ∧
             rooms (websocket_server w') =
               <[rid := length (heap w)]> (rooms (websocket_server w))
      else
        result (initialize self request_path cd sd) w = Raise TypeError ∧
        heap w' = heap w ∧
        rooms (websocket_server w') = rooms (websocket_server w)
  end.
Proof.
  intros rid w'. subst w'. unfold exec, result, resolvable.
  destruct (registered w rid) as [r|] eqn:E.
  { rewrite (initialize_known self request_path cd sd w r) by done. done. }
  destruct (2 <=? count rid colon)%nat eqn:E2.
  - destruct (decode_file_path_total rid E2) as (fmt & typ & fid & Ed).
    rewrite Ed. destruct (get_path (file_id_manager w) fid) as [p|] eqn:Ep.
    + rewrite (initialize_document self request_path cd sd w fmt typ fid p)
        by done.
      fold rid. destruct (loaders_getitem (file_loaders w) rid) as [fl l].
      split_and!; [done..|]. eexists. split_and!; reflexivity.
    + rewrite (initialize_document_unresolved self request_path cd sd w
                 fmt typ fid) by done.
      done.
  - rewrite (initialize_transient self request_path cd sd w) by done.
    split_and!; [done..|]. eexists. split_and!; reflexivity.
Qed.

(** One connection, seen from an identity [rid]. *)
Lemma connect_step c (w : World) rid :
  let w1 := exec (connect c) w in
  file_id_manager w1 = file_id_manager w ∧
  ∃ n1, heap w1 = heap w ++ n1 ∧
    (∀ r, registered w rid = Some r →
       filter (λ o, room_id o = rid) n1 = [] ∧ registered w1 rid = Some r) ∧
    (registered w rid = None →
       if bool_decide (identity c = rid) && resolvable w rid
       then ∃ o, n1 = [o] ∧ room_id o = rid ∧
                 is_document o = (2 <=? count rid colon)%nat ∧
                 registered w1 rid = Some (length (heap w))
       else filter (λ o, room_id o = rid) n1 = [] ∧ registered w1 rid = None).
Proof.
  intros w1. subst w1. unfold connect, identity.
  destruct (initialize_outcome (conn_self c) (conn_path c)
              (conn_cleanup_delay c) (conn_save_delay c) w) as [Hf Hout].
  split; [done|]. unfold registered in *.
  set (rc := last_segment (conn_path c) slash) in *.
  destruct (rooms (websocket_server w) !! rc) as [r0|] eqn:Erc.
  { destruct Hout as (_ & -> & ->). exists []. rewrite app_nil_r.
    split_and!; [done|done|]. intros E.
    rewrite bool_decide_eq_false_2; [done|]. intros <-. congruence. }
  destruct (resolvable w rc) eqn:Eres.
  - destruct Hout as (_ & o & -> & Hid & Hdoc & ->). exists [o].
    split_and!; [done| |].
    + intros r E. assert (rc ≠ rid) by (intros <-; congruence).
      rewrite filter_cons_False by (simpl; congruence).
      by rewrite lookup_insert_ne.
    + intros E. case_bool_decide as Hrid; simpl.
      * subst rid. rewrite Eres. exists o. by rewrite lookup_insert_eq.
      * rewrite filter_cons_False by (simpl; congruence).
        by rewrite lookup_insert_ne.
  - destruct Hout as (_ & -> & ->). exists []. rewrite app_nil_r.
    split_and!; [done|done|]. intros E.
    case_bool_decide as Hrid; simpl; [subst rid; by rewrite Eres|done].
Qed.

Lemma resolvable_same (w1 w2 : World) rid :
  file_id_manager w1 = file_id_manager w2 →
  resolvable w1 rid = resolvable w2 rid.
Proof. unfold resolvable. by intros ->. Qed.

(** Any number of connections, seen from an identity [rid]: the heap only
    grows; a registered identity gets no new room; an identity that is
    not registered gets exactly one when a room can be built for it and
    some connection asks for it, and none otherwise. *)
Lemma connect_all_summary cs : ∀ (w : World) rid,
  let w' := connect_all cs w in
  file_id_manager w' = file_id_manager w ∧
  ∃ news, heap w' = heap w ++ news ∧
    (∀ r, registered w rid = Some r →
       filter (λ o, room_id o = rid) news = [] ∧ registered w' rid = Some r) ∧
    (registered w rid = None → resolvable w rid = true →
     (∃ c, c ∈ cs ∧ identity c = rid) →
       ∃ r o, filter (λ o, room_id o = rid) news = [o] ∧
              registered w' rid = Some r ∧ heap w' !! r = Some o ∧
              (length (heap w) ≤ r)%nat ∧ room_id o = rid ∧
              is_document o = (2 <=? count rid colon)%nat) ∧
    (registered w rid = None →
     resolvable w rid = false ∨ (∀ c, c ∈ cs → identity c ≠ rid) →
       filter (λ o, room_id o = rid) news = [] ∧ registered w' rid = None).
Proof.
  induction cs as [|c cs IH]; intros w rid w'; subst w'.
  { split; [done|]. exists []. rewrite app_nil_r. simpl.
    split_and!; [done|done| |done].
    intros _ _ (c & Hc & _). by apply elem_of_nil in Hc. }
  change (connect_all (c :: cs) w)
    with (connect_all cs (exec (connect c) w)).
  set (w1 := exec (connect c) w).
  destruct (connect_step c w rid) as (Hf1 & n1 & Hh1 & Hreg1 & Hnew1).
  fold w1 in Hf1, Hh1, Hreg1, Hnew1.
  destruct (IH w1 rid) as (Hf & news & Hh & Hreg & Hone & Hnone).
  split; [congruence|]. exists (n1 ++ news).
  split; [by rewrite Hh, Hh1, app_assoc|].
  rewrite filter_app. split_and!.
  - intros r E. destruct (Hreg1 r E) as [-> E1].
    by destruct (Hreg r E1) as [-> ->].
  - intros E Hres (c' & Hc' & Hid'). specialize (Hnew1 E).
    rewrite Hres, andb_true_r in Hnew1. case_bool_decide as Hc.
    + destruct Hnew1 as (o & -> & Hid & Hdoc & E1).
      destruct (Hreg _ E1) as [-> E']. exists (length (heap w)), o.
      rewrite filter_cons_True by done.
      split_and!; [done|done| |done|done|done].
      rewrite Hh, Hh1. apply lookup_app_l_Some.
      by rewrite lookup_app_r, Nat.sub_diag.
    + destruct Hnew1 as [-> E1].
      destruct (Hone E1) as (r & o & -> & ? & ? & Hle & ? & ?).
      { by rewrite (resolvable_same w1 w). }
      { exists c'. split; [|done].
        apply elem_of_cons in Hc' as [->|?]; [done|done]. }
      exists r, o. split_and!; try done.
      rewrite Hh1, length_app in Hle. lia.
  - intros E Hno. specialize (Hnew1 E).
    assert (Hb : bool_decide (identity c = rid) && resolvable w rid = false).
    { destruct Hno as [->|Hno]; [by rewrite andb_false_r|].
      rewrite bool_decide_eq_false_2; [done|].
      apply Hno, elem_of_cons; by left. }
    rewrite Hb in Hnew1. destruct Hnew1 as [-> E1].
    destruct (Hnone E1) as [-> ->]; [|done].
    destruct Hno as [Hno|Hno]; [left; by rewrite (resolvable_same w1 w)|].
    right. intros c' Hc'. apply Hno, elem_of_cons. by right.
Qed.

Lemma connect_all_app cs1 cs2 (w : World) :
  connect_all (cs1 ++ cs2) w = connect_all cs2 (connect_all cs1 w).
Proof. unfold connect_all. by rewrite foldl_app. Qed.

(** A connection for an identity that is registered, or for which a room
    can be built, succeeds. *)
Lemma connect_succeeds c (w : World) :
  is_Some (registered w (identity c)) ∨ resolvable w (identity c) = true →
  result (connect c) w = Ok tt.
Proof.
  intros Hc. unfold connect, identity in *.
  destruct (initialize_outcome (conn_self c) (conn_path c)
              (conn_cleanup_delay c) (conn_save_delay c) w) as [_ Hout].
  destruct (registered w (last_segment (conn_path c) slash)) as [r|];
    [by destruct Hout|].
  destruct Hc as [Hs|Hres]; [by destruct Hs|].
  rewrite Hres in Hout. by destruct Hout.
Qed.

(** C1. Any number of connections, each running [initialize] in one turn
    (it has no suspension point), in any order, and any identity: at most
    one room is constructed for the identity. None is when the identity
    is registered already. When it is not (the connections are the first
    for it), a room can be built for it and some connection asks for it,
    exactly one room is constructed: it is the one the registry then holds
    under the identity, a Document Room exactly when the identity has two
    separators, and every connection for the identity succeeds and holds
    that room. *)
Theorem one_room_per_identity (w : World) (cs : list Connection) rid :
  let w' := connect_all cs w in
  (∀ c w0, result (connect c) w0 ≠ Blocked) ∧
  (length (constructed_for w w' rid) ≤ 1)%nat ∧
  (∀ r, registered w rid = Some r →
     constructed_for w w' rid = [] ∧ registered w' rid = Some r) ∧
  (registered w rid = None → resolvable w rid = true →
   (∃ c, c ∈ cs ∧ identity c = rid) →
     ∃ r o,
       constructed_for w w' rid = [o] ∧
       registered w' rid = Some r ∧ heap w' !! r = Some o ∧
       (length (heap w) ≤ r)%nat ∧ room_id o = rid ∧
       is_document o = (2 <=? count rid colon)%nat ∧
       ∀ cs1 c cs2, cs = cs1 ++ c :: cs2 → identity c = rid →
         result (connect c) (connect_all cs1 w) = Ok tt ∧
         ∃ h, handlers (connect_all (cs1 ++ [c]) w) !! conn_self c = Some h ∧
              room h = Some r).
Proof.
  intros w'. subst w'.
  destruct (connect_all_summary cs w rid)
    as (_ & news & Hh & Hreg & Hone & Hnone).
  assert (Hc : constructed_for w (connect_all cs w) rid =
               filter (λ o, room_id o = rid) news).
  { unfold constructed_for, constructed. by rewrite Hh, drop_app_length. }
  rewrite Hc. split_and!.
  - intros c w0. apply initialize_atomic.
  - destruct (registered w rid) as [r|] eqn:E.
    { destruct (Hreg r eq_refl) as [-> _]. simpl. lia. }
    destruct (resolvable w rid) eqn:Eres.
    2:{ destruct Hnone as [-> _]; [done|by left|simpl; lia]. }
    destruct (decide (Exists (λ c, identity c = rid) cs)) as [Hex|Hex].
    + apply Exists_exists in Hex.
      destruct (Hone eq_refl eq_refl Hex) as (r & o & -> & _). simpl. lia.
    + destruct Hnone as [-> _]; [done| |simpl; lia].
      right. intros c Hin Hid. apply Hex, Exists_exists. eauto.
  - exact Hreg.
  - intros E Eres Hex.
    destruct (Hone E Eres Hex) as (r & o & Hf & Hr & Ho & Hle & Hid & Hdoc).
    exists r, o. split_and!; try done.
    intros cs1 c cs2 -> Hidc.
    destruct (connect_all_summary cs1 w rid) as (Hf1 & _).
    assert (Hok : result (connect c) (connect_all cs1 w) = Ok tt).
    { apply connect_succeeds. right.
      by rewrite Hidc, (resolvable_same _ w). }
    split; [done|].
    destruct (initialize_registers _ _ _ _ _ Hok) as (r' & h & Hr' & Hh' & Hhr).
    exists h. rewrite connect_all_app. split; [done|].
    rewrite Hhr. f_equal.
    assert (Hr'' : registered (connect_all (cs1 ++ c :: cs2) w) rid = Some r').
    { rewrite (connect_all_app cs1 (c :: cs2)).
      change (connect_all (c :: cs2) (connect_all cs1 w))
        with (connect_all cs2 (exec (connect c) (connect_all cs1 w))).
      apply connect_all_keeps_registered.
      unfold identity in Hidc. by rewrite <- Hidc. }
    congruence.
Qed.

Variable SERVER_SESSION : string.

Lemma open_transient self sessionId (w : World) h r o :
  handlers w !! self = Some h → room h = Some r → heap w !! r = Some o →
  variant o = TransientRoom →
  open SERVER_SESSION self sessionId w = (Ok tt, opened self w).
Proof.
  intros Hh Hr Ho Hv. unfold open, create_task, self_room, this, deref.
  run. rewrite Hh. run. rewrite Hr. run. rewrite Ho. run. rewrite Hv.
  reflexivity.
Qed.

Lemma serve_attach_ok self (w : World) h r o :
  handlers w !! self = Some h → registered w (_room_id h) = Some r →
  heap w !! r = Some o →
  serve_attach self w =
    (Ok r, with_heap (<[r := set_clients (clients o ++ [self]) o]>) w).
Proof.
  intros Hh Hr Ho. unfold registered in Hr.
  unfold serve_attach, path, this, get_room, deref, update_room.
  run. rewrite Hh. run. rewrite Hr. run. rewrite Ho. run. rewrite Ho.
  reflexivity.
Qed.

Lemma run_task_serve_created t self (w : World) :
  tasks w !! t = Some (serve_task self) →
  run_task t w =
    match serve_attach self w with
    | (Ok r, w') => set_state t (Serving r) w'
    | (Raise e, w') => serve_done t (Failed e) w'
    | (Blocked, w') => (Ok tt, w')
    end.
Proof. intros Ht. unfold run_task. by rewrite Ht. Qed.

(** C10. On a Transient Room [open] does nothing but create the serve
    task, whatever [sessionId] is given or none: nothing is sent to the
    connection (no closing), no task is cancelled, no room is touched; and
    the first turn of the serve task makes the handler a client of the
    room. *)
Theorem transient_room_accepts_any_session self sessionId (w : World) h r o :
  handlers w !! self = Some h → room h = Some r → heap w !! r = Some o →
  variant o = TransientRoom →
  registered w (_room_id h) = Some r →
  let w' := exec (open SERVER_SESSION self sessionId) w in
  result (open SERVER_SESSION self sessionId) w = Ok tt ∧
  trace w' = trace w ∧ heap w' = heap w ∧ file_loaders w' = file_loaders w ∧
  tasks w' = tasks w ++ [serve_task self] ∧
  length (tasks w) ∈ background_tasks (websocket_server w') ∧
  ∃ o', heap (exec (run_task (length (tasks w))) w') !! r = Some o' ∧
        clients o' = clients o ++ [self].
Proof.
  intros Hh Hr Ho Hv Hreg w'. subst w'. unfold exec, result.
  rewrite (open_transient self sessionId w h r o) by done.
  unfold opened. run. split_and!; try done.
  - set_solver.
  - rewrite (run_task_serve_created _ self).
    2:{ run. by rewrite lookup_app_r, Nat.sub_diag. }
    erewrite serve_attach_ok; [|done..].
    unfold set_state. run.
    eexists. split; [apply list_lookup_insert_eq; by eapply lookup_lt_Some|].
    reflexivity.
Qed.

Lemma with_trace_nil (w : World) : with_trace (λ t, t ++ []) w = w.
Proof. destruct w. unfold with_trace. simpl. by rewrite app_nil_r. Qed.

Lemma cancel_eq t (w : World) : cancel t w = (Ok tt, cancelled t w).
Proof.
  unfold cancel, cancelled, set_state.
  destruct (tasks w !! t) as [k|] eqn:Ht; [|done].
  destruct (is_pending (state k)); [|done]. run. by rewrite Ht.
Qed.

Lemma room_initialize_document r (w : World) o d :
  heap w !! r = Some o → variant o = DocumentRoom d →
  room_initialize r w = (Ok tt, initialized r o d w).
Proof.
  intros Ho Hv. unfold room_initialize, initialized, deref, update_room.
  run. rewrite Ho. run. rewrite Hv. destruct (ready d); [done|].
  run. rewrite Ho. reflexivity.
Qed.

(** [open] on a Document Room, step by step: the serve task, the session
    check, the cleaner, the initialisation of the room, the event. *)
Lemma open_document self sessionId (w : World) h r o d fmt typ fid :
  handlers w !! self = Some h → room h = Some r → heap w !! r = Some o →
  variant o = DocumentRoom d →
  decode_file_path (_room_id h) = Ok (fmt, typ, fid) →
  open SERVER_SESSION self sessionId w =
    (Ok tt,
     with_trace (λ t, t ++ [event INFO (_room_id h)
                              (get_path (file_id_manager w) fid)
                              (Some "initialize")
                              (Some "New client connected.")])
       (initialized r o d
         (cancel_cleaner d
           (with_trace (λ t, t ++ session_check SERVER_SESSION self sessionId)
             (opened self w))))).
Proof.
  intros Hh Hr Ho Hv Hd.
  match goal with |- _ = ?rhs => set (R := rhs) end.
  unfold open, create_task, self_room, this, deref.
  run. rewrite Hh. run. rewrite Hr. run. rewrite Ho. run. rewrite Hv. run.
  set (w1 := {| websocket_server := _ |}).
  assert (Hmid : ∀ evs,
    (let w2 := with_trace (λ t, t ++ evs) w1 in
     let (o0, w') :=
       match cleaner d with
       | Some t => cancel t
       | None => λ w0 : World, (Ok (), w0)
       end w2 in
     match o0 with
     | Ok _ =>
         let (o1, w'0) := room_initialize r w' in
         match o1 with
         | Ok _ =>
             _emit self INFO (Some "initialize") (Some "New client connected.") w'0
         | Raise e => (Raise e, w'0)
         | Blocked => (Blocked, w'0)
         end
     | Raise e => (Raise e, w')
     | Blocked => (Blocked, w')
     end) =
    (Ok tt,
     with_trace (λ t, t ++ [event INFO (_room_id h)
                              (get_path (file_id_manager w) fid)
                              (Some "initialize")
                              (Some "New client connected.")])
       (initialized r o d
          (match cleaner d with
           | Some t => cancelled t (with_trace (λ t, t ++ evs) w1)
           | None => with_trace (λ t, t ++ evs) w1
           end)))).
  { intros evs. cbv zeta.
    set (w2 := with_trace _ w1).
    set (w3 := match cleaner d with Some t => cancelled t w2 | None => w2 end).
    assert (Hc : match cleaner d with
                 | Some t => cancel t
                 | None => λ w0 : World, (Ok (), w0)
                 end w2 = (Ok tt, w3)).
    { subst w3. destruct (cleaner d); [apply cancel_eq|done]. }
    rewrite Hc.
    assert (H3 : heap w3 = heap w ∧ handlers w3 = handlers w ∧
                 file_id_manager w3 = file_id_manager w).
    { subst w3 w2. destruct (cleaner d) as [t|]; [|done].
      unfold cancelled. destruct (tasks _ !! t) as [k|]; [|done].
      by destruct (is_pending (state k)). }
    destruct H3 as (H3h & H3hd & H3f).
    rewrite (room_initialize_document r w3 o d) by (by rewrite ?H3h).
    assert (H4 : handlers (initialized r o d w3) = handlers w ∧
                 file_id_manager (initialized r o d w3) = file_id_manager w).
    { unfold initialized. by destruct (ready d). }
    destruct H4 as (H4hd & H4f).
    erewrite _emit_ok; [|by rewrite H4hd|done]. by rewrite H4f. }
  subst R. unfold session_check, cancel_cleaner. fold (opened self w) in w1.
  case_bool_decide.
  - apply (Hmid [_]).
  - specialize (Hmid []). cbv zeta in Hmid.
    rewrite with_trace_nil in *. exact Hmid.
Qed.

Lemma put_nowait_eq self item (w : World) h :
  handlers w !! self = Some h →
  put_nowait self item w =
    (Ok tt, with_handlers (insert self (enqueue item h)) w).
Proof.
  intros Hh. unfold put_nowait, this, set_message_queue. run. rewrite Hh. run.
  do 2 f_equal. apply map_eq. intros i. rewrite lookup_alter, lookup_insert.
  case_decide; [subst; by rewrite Hh|done].
Qed.

Lemma on_close_eq self (w : World) h r o :
  handlers w !! self = Some h → room h = Some r → heap w !! r = Some o →
  on_close self w =
    (Ok tt,
     let w1 := with_handlers (insert self (enqueue [] h)) w in
     match variant o with
     | DocumentRoom d =>
         if bool_decide (clients o = [self])
         then cleanup_scheduled self r o d w1
         else w1
     | TransientRoom => w1
     end).
Proof.
  intros Hh Hr Ho. unfold on_close.
  unfold mbind at 1, M_bind at 1. rewrite (put_nowait_eq self [] w h Hh).
  unfold self_room, this, deref, create_task, update_room, cleanup_scheduled.
  run. rewrite lookup_insert_eq. run. rewrite Hr. run. rewrite Ho. run.
  destruct (variant o) as [d|]; [|done].
  case_bool_decide; [|done]. run. rewrite Ho. reflexivity.
Qed.

Lemma run_task_idle t (w : World) k :
  tasks w !! t = Some k → is_pending (state k) = false →
  run_task t w = (Ok tt, w).
Proof.
  intros Ht Hk. unfold run_task. rewrite Ht.
  destruct k as [[?|?] []]; simpl in Hk; done.
Qed.

Lemma wait_and_run_idle t dts (w : World) k :
  tasks w !! t = Some k → is_pending (state k) = false →
  let w' := wait_and_run t dts w in
  websocket_server w' = websocket_server w ∧ heap w' = heap w ∧
  handlers w' = handlers w ∧ tasks w' = tasks w ∧ trace w' = trace w.
Proof.
  revert w. induction dts as [|dt dts IH]; intros w Ht Hk; [done|].
  intros w'. subst w'.
  change (wait_and_run t (dt :: dts) w)
    with (wait_and_run t dts (exec (sleep dt;; run_task t) w)).
  set (w1 := exec (sleep dt;; run_task t) w).
  assert (H1 : websocket_server w1 = websocket_server w ∧ heap w1 = heap w ∧
               handlers w1 = handlers w ∧ tasks w1 = tasks w ∧
               trace w1 = trace w).
  { subst w1. unfold sleep. run. erewrite run_task_idle; [done|exact Ht|done]. }
  destruct H1 as (? & ? & ? & Ht1 & ?).
  destruct (IH w1) as (? & ? & ? & ? & ?); [by rewrite Ht1|done|].
  split_and!; congruence.
Qed.

(** What [on_close] and [open] do about the cleanup, one call at a time.
    [on_close] schedules a cleanup task exactly when the room's client
    list is just the closing handler, and makes it the room's [cleaner].
    [open] cancels the task that is the room's [cleaner], if it is still
    pending: the room object, with its document and its clients, and the
    registry are as they were, and that task never destroys the room,
    however long the wait. Nothing is said of a cleanup task that is not
    the room's [cleaner]. *)
Lemma cleanup_scheduled_by_last_client_and_cancelled_by_attach
    (w : World) self h r o d (w2 : World) self2 h2 o2 d2 t c st
    fmt typ fid sessionId :
  handlers w !! self = Some h → room h = Some r → heap w !! r = Some o →
  variant o = DocumentRoom d →
  handlers w2 !! self2 = Some h2 → room h2 = Some r → heap w2 !! r = Some o2 →
  variant o2 = DocumentRoom d2 → ready d2 = true → cleaner d2 = Some t →
  tasks w2 !! t = Some {| coro := c; state := st |} →
  is_pending st = true →
  decode_file_path (_room_id h2) = Ok (fmt, typ, fid) →
  let w' := exec (on_close self) w in
  let w2' := exec (open SERVER_SESSION self2 sessionId) w2 in
  (clients o = [self] →
     tasks w' = tasks w ++ [cleanup_task self] ∧
     ∃ o', heap w' !! r = Some o' ∧ clients o' = clients o ∧
           variant o' = DocumentRoom (set_cleaner (Some (length (tasks w))) d)) ∧
  (clients o ≠ [self] → tasks w' = tasks w ∧ heap w' = heap w) ∧
  tasks w2' !! t = Some {| coro := c; state := Cancelled |} ∧
  heap w2' = heap w2 ∧
  rooms (websocket_server w2') = rooms (websocket_server w2) ∧
  (∀ dts, rooms (websocket_server (wait_and_run t dts w2')) =
            rooms (websocket_server w2) ∧
          heap (wait_and_run t dts w2') = heap w2).
Proof.
  intros Hh Hr Ho Hv Hh2 Hr2 Ho2 Hv2 Hready Hcl Ht Hst Hd w' w2'.
  subst w' w2'. unfold exec.
  rewrite (on_close_eq self w h r o) by done.
  rewrite (open_document self2 sessionId w2 h2 r o2 d2 fmt typ fid) by done.
  rewrite Hv. unfold initialized, cancel_cleaner. rewrite Hready, Hcl.
  set (w3 := with_trace _ (opened self2 w2)).
  assert (Ht3 : tasks w3 !! t = Some {| coro := c; state := st |}).
  { subst w3. unfold opened. run. by apply lookup_app_l_Some. }
  unfold cancelled. rewrite Ht3. cbn [state coro]. rewrite Hst.
  assert (Hlt : (t < length (tasks w3))%nat) by by eapply lookup_lt_Some.
  split_and!.
  - intros Hc. rewrite bool_decide_eq_true_2 by done.
    unfold cleanup_scheduled. run. split; [done|].
    eexists. split; [apply list_lookup_insert_eq; by eapply lookup_lt_Some|].
    done.
  - intros Hc. by rewrite bool_decide_eq_false_2 by done.
  - run. by apply list_lookup_insert_eq.
  - done.
  - done.
  - intros dts.
    match goal with |- context [wait_and_run t dts ?w4] =>
      destruct (wait_and_run_idle t dts w4 {| coro := c; state := Cancelled |})
        as (-> & -> & _)
    end; [|done..].
    run. by apply list_lookup_insert_eq.
Qed.

(** *** The awareness directory *)

Lemma directory_set_id (w : World) :
  directory_set (connected_users (websocket_server w)) [] w = w.
Proof.
  destruct w as [[] ? ? ? ? ? ? ?]. unfold directory_set. run.
  by rewrite app_nil_r.
Qed.

Lemma directory_set_twice cu1 evs1 cu2 evs2 (w : World) :
  directory_set cu2 evs2 (directory_set cu1 evs1 w) =
  directory_set cu2 (evs1 ++ evs2) w.
Proof. unfold directory_set. run. by rewrite app_assoc. Qed.

Lemma join_users_eq added_users : ∀ i sts (w : World),
  (length added_users <= length (drop i sts))%nat →
  forallb well_formed_state (take (length added_users) (drop i sts)) = true →
  ∃ evs, join_users i added_users sts w =
    (Ok tt, directory_set (directory_join added_users (drop i sts)
                             (connected_users (websocket_server w))) evs w).
Proof.
  induction added_users as [|user rest IH]; intros i sts w Hlen Hwf.
  { exists []. simpl. rewrite directory_set_id. done. }
  destruct (drop i sts) as [|u sts'] eqn:Hdrop; [simpl in Hlen; lia|].
  assert (Hi : sts !! i = Some u).
  { rewrite <- (Nat.add_0_r i), <- lookup_drop, Hdrop. done. }
  assert (Hdrop' : drop (S i) sts = sts').
  { rewrite <- (Nat.add_1_r i), <- drop_drop, Hdrop. done. }
  simpl in Hlen, Hwf. apply andb_prop in Hwf as [Hu Hwf].
  set (cu1 := match display_name u with
              | Some nm => <[user := nm]> (connected_users (websocket_server w))
              | None => connected_users (websocket_server w)
              end).
  set (evs1 := if dict_contains u "user"
               then [Log "debug" "Y user joined: %s"] else []).
  destruct (IH (S i) sts (directory_set cu1 evs1 w)) as [evs Hevs];
    [rewrite Hdrop'; lia|by rewrite Hdrop'|].
  rewrite directory_set_twice, Hdrop' in Hevs.
  exists (evs1 ++ evs).
  assert (Hstep : join_users i (user :: rest) sts w =
                  join_users (S i) rest sts (directory_set cu1 evs1 w)).
  { cbn [join_users]. run. rewrite Hi. run. subst cu1 evs1.
    unfold well_formed_state, display_name, dict_contains in *.
    destruct (dict_get u "user") as [v|] eqn:Hv; run.
    - destruct v as [| | | | |m]; try done. run.
      destruct (dict_get m "name") as [nm|] eqn:Hn; [|done]. run.
      unfold directory_set. run. reflexivity.
    - by rewrite directory_set_id. }
  rewrite Hstep, Hevs. reflexivity.
Qed.

Lemma leave_users_eq removed_users : ∀ (w : World),
  ∃ evs, leave_users removed_users w =
    (Ok tt, directory_set (directory_leave removed_users
                             (connected_users (websocket_server w))) evs w).
Proof.
  induction removed_users as [|user rest IH]; intros w.
  { exists []. simpl. by rewrite directory_set_id. }
  set (cu := connected_users (websocket_server w)).
  set (evs1 := match cu !! user with
               | Some _ => [Log "debug" "Y user left: %s"]
               | None => []
               end).
  destruct (IH (directory_set (delete user cu) evs1 w)) as [evs Hevs].
  rewrite directory_set_twice in Hevs.
  exists (evs1 ++ evs).
  assert (Hstep : leave_users (user :: rest) w =
                  leave_users rest (directory_set (delete user cu) evs1 w)).
  { cbn [leave_users]. run. subst evs1. fold cu.
    destruct (cu !! user) as [nm|] eqn:Hu; run.
    - unfold directory_set. run. reflexivity.
    - rewrite delete_id by done. subst cu. by rewrite directory_set_id. }
  rewrite Hstep, Hevs. reflexivity.
Qed.

(** Whatever the changes, the loops touch the directory and the trace
    only, and never suspend. *)
Lemma join_users_frame added_users : ∀ i sts (w : World),
  ∃ out cu evs, join_users i added_users sts w = (out, directory_set cu evs w)
                ∧ out ≠ Blocked.
Proof.
  induction added_users as [|user rest IH]; intros i sts w.
  { exists (Ok tt), (connected_users (websocket_server w)), [].
    simpl. by rewrite directory_set_id. }
  cbn [join_users]. run.
  destruct (sts !! i) as [u|]; run.
  2:{ eexists _, _, []. rewrite directory_set_id. done. }
  unfold dict_contains.
  destruct (dict_get u "user") as [v|] eqn:Hv; run.
  - rewrite ?Hv. run.
    destruct (subscript v "name") as [nm| |] eqn:Hn; run.
    + destruct (IH (S i) sts
        (directory_set (<[user := nm]> (connected_users (websocket_server w)))
           [Log "debug" "Y user joined: %s"] w)) as (out & cu & evs & Hj & Hb).
      rewrite directory_set_twice in Hj. unfold directory_set in Hj at 1.
      revert Hj. run. intros ->. eauto.
    + eexists _, _, []. rewrite directory_set_id. done.
    + destruct v as [| | | | |m]; try done. simpl in Hn.
      by destruct (dict_get m "name").
  - destruct (IH (S i) sts w) as (out & cu & evs & Hj & Hb). eauto.
Qed.


Lemma on_message_other self message_type payload (w : World) h :
  handlers w !! self = Some h →
  is_awareness message_type = false →
  on_message self (message_type :: payload) w =
    (Ok false, queued self (message_type :: payload) h w).
Proof.
  intros Hh Hb. unfold is_awareness in Hb. unfold on_message. rewrite Hb.
  unfold mbind at 1, M_bind at 1. cbn [mret M_ret].
  unfold mbind at 1, M_bind at 1. rewrite (put_nowait_eq _ _ _ h) by done.
  reflexivity.
Qed.

Lemma on_message_awareness self message_type payload (w : World) h r o ch a :
  handlers w !! self = Some h → room h = Some r → heap w !! r = Some o →
  is_awareness message_type = true →
  get_changes (awareness o) payload = (inr ch, a) →
  well_formed ch = true →
  ∃ evs,
    on_message self (message_type :: payload) w =
      (Ok false,
       queued self (message_type :: payload) h
         (directory_set
            (directory_after ch (connected_users (websocket_server w))) evs
            (with_heap (<[r := set_awareness a o]>) w))).
Proof.
  intros Hh Hr Ho Hb Hg Hwf. unfold is_awareness in Hb.
  apply andb_prop in Hwf as [Hlen Hwf]. apply Nat.leb_le in Hlen.
  set (w1 := with_heap (<[r := set_awareness a o]>) w).
  destruct (join_users_eq (added ch) 0 (states ch) w1) as [evs1 Hj]; [done..|].
  rewrite drop_0 in Hj.
  set (w2 := directory_set _ evs1 w1) in Hj.
  destruct (leave_users_eq (removed ch) w2) as [evs2 Hl].
  subst w2. rewrite directory_set_twice in Hl.
  exists (evs1 ++ evs2).
  unfold on_message. rewrite Hb. unfold self_room, this, deref, update_room.
  run. rewrite Hh. run. rewrite Hr. run. rewrite Ho. run. rewrite Hg. run.
  rewrite Ho.
  match goal with |- context [join_users 0 _ _ ?w0] => change w0 with w1 end.
  rewrite Hj. run.
  match goal with |- context [leave_users _ ?w0] =>
    change w0 with (directory_set
      (directory_join (added ch) (states ch)
         (connected_users (websocket_server w1))) evs1 w1)
  end.
  rewrite Hl. run.
  erewrite put_nowait_eq; [reflexivity|]. done.
Qed.

(** Whatever the frame, [on_message] either queues it (and then the frame
    is not empty) or raises and leaves the handlers as they are. *)
Lemma on_message_frame self message (w : World) h :
  handlers w !! self = Some h →
  (result (on_message self message) w = Ok false ∧ message ≠ [] ∧
   handlers (exec (on_message self message) w) =
     <[self := enqueue message h]> (handlers w))
  ∨ ((∃ e, result (on_message self message) w = Raise e) ∧
     handlers (exec (on_message self message) w) = handlers w).
Proof.
  intros Hh. destruct message as [|b payload].
  { right. split; [by eexists|done]. }
  destruct (is_awareness b) eqn:Hb.
  2:{ left. unfold exec, result.
      rewrite (on_message_other self b payload w h) by done. done. }
  unfold is_awareness in Hb. unfold exec, result, on_message. rewrite Hb.
  unfold self_room, this, deref, update_room.
  run. rewrite Hh. run.
  destruct (room h) as [r|]; run; [|right; split; [by eexists|done]].
  destruct (heap w !! r) as [o|] eqn:Ho; run;
    [|right; split; [by eexists|done]].
  destruct (get_changes (awareness o) payload) as [[e|ch] a]; run;
    rewrite ?Ho; [right; split; [by eexists|done]|].
  set (w1 := {| websocket_server := _ |}).
  destruct (join_users_frame (added ch) 0 (states ch) w1)
    as (out & cu & evs & -> & Hout).
  destruct out as [[]|e|]; [|right; split; [by eexists|done]|done].
  destruct (leave_users_eq (removed ch) (directory_set cu evs w1))
    as [evs2 ->]. run.
  erewrite put_nowait_eq; [|run; exact Hh]. left. done.
Qed.

(** An awareness frame whose payload decodes to changes in which every
    state paired with an added participant is well formed goes through
    the two loops and is queued for the room; the count of patches goes
    up by one. *)
Lemma awareness_frame_updates_directory_and_is_queued
    self message_type payload (w : World) h r o ch a :
  handlers w !! self = Some h → room h = Some r → heap w !! r = Some o →
  is_awareness message_type = true →
  get_changes (awareness o) payload = (inr ch, a) →
  well_formed ch = true →
  let message := message_type :: payload in
  let w' := exec (on_message self message) w in
  result (on_message self message) w = Ok false ∧
  connected_users (websocket_server w') =
    directory_after ch (connected_users (websocket_server w)) ∧
  handlers w' !! self = Some (enqueue message h) ∧
  ypatch_nb (websocket_server w') = ypatch_nb (websocket_server w) + 1.
Proof.
  intros Hh Hr Ho Hb Hg Hwf message w'. subst w' message. unfold exec, result.
  destruct (on_message_awareness self message_type payload w h r o ch a)
    as [evs ->]; [done..|].
  unfold queued, directory_set. run. split_and!; try done.
  apply lookup_insert_eq.
Qed.

Lemma __anext___eq self (w : World) h :
  handlers w !! self = Some h →
  __anext__ self w =
    match _message_queue h with
    | [] => (Blocked, w)
    | [] :: _ =>
        (Raise StopAsyncIteration, with_handlers (insert self (dequeue h)) w)
    | message :: _ =>
        (Ok message, with_handlers (insert self (dequeue h)) w)
    end.
Proof.
  intros Hh. unfold __anext__, queue_get, this, set_message_queue, dequeue.
  run. rewrite Hh. run.
  destruct (_message_queue h) as [|m q] eqn:Hq; [done|]. run.
  assert (Ha : ∀ f, f h = {| _room_id := _room_id h; room := room h;
                             _message_queue := q;
                             _cleanup_delay := _cleanup_delay h |} →
               alter f self (handlers w) =
               <[self := {| _room_id := _room_id h; room := room h;
                            _message_queue := q;
                            _cleanup_delay := _cleanup_delay h |}]>
                 (handlers w)).
  { intros f Hf. apply map_eq. intros i. rewrite lookup_alter, lookup_insert.
    case_decide; [subst; by rewrite Hh, <- Hf|done]. }
  rewrite Ha by done. by destruct m.
Qed.

Lemma on_close_frame self (w : World) h :
  handlers w !! self = Some h →
  handlers (exec (on_close self) w) = <[self := enqueue [] h]> (handlers w).
Proof.
  intros Hh. unfold exec, on_close.
  unfold mbind at 1, M_bind at 1. rewrite (put_nowait_eq self [] w h Hh).
  unfold self_room, this, deref, create_task, update_room.
  run. rewrite lookup_insert_eq. run.
  destruct (room h) as [r|]; run; [|done].
  destruct (heap w !! r) as [o|] eqn:Ho; run; [|done].
  destruct (variant o) as [d|]; [|done].
  case_bool_decide; [|done]. run. by rewrite ?Ho.
Qed.

Lemma relay_step_ok self (ws : World * Stream) op :
  queue_ok self ws → queue_ok self (relay_step self ws op).
Proof.
  destruct ws as [w s]. intros (h & Hh & Hq & Hy). simpl in *.
  destruct op as [message| |]; simpl.
  - destruct (on_message_frame self message w h Hh)
      as [(Hres & Hne & Hhd)|([e Hres] & Hhd)];
      unfold exec, result in *;
      destruct (on_message self message w) as [out w']; simpl in *; subst out.
    + exists (enqueue message h). simpl. rewrite Hhd, lookup_insert_eq.
      split_and!; [done| |done]. unfold consumed in *. simpl.
      by rewrite Hq, app_assoc.
    + exists h. destruct e; simpl; by rewrite Hhd.
  - exists (enqueue [] h). simpl. rewrite (on_close_frame self w h Hh).
    rewrite lookup_insert_eq. split_and!; [done| |done].
    unfold consumed in *. simpl. by rewrite Hq, app_assoc.
  - destruct (ended s) eqn:He; [by exists h|].
    rewrite (__anext___eq self w h Hh).
    unfold consumed in Hq. rewrite He, app_nil_r in Hq.
    destruct (_message_queue h) as [|[|b m] q] eqn:Hmq.
    + exists h. unfold consumed. simpl. rewrite He, app_nil_r, Hmq. done.
    + exists (dequeue h). unfold with_handlers. simpl.
      rewrite lookup_insert_eq. unfold consumed, dequeue.
      simpl. rewrite Hmq. simpl. split_and!; [done| |done].
      by rewrite Hq, <- app_assoc.
    + exists (dequeue h). unfold with_handlers. simpl.
      rewrite lookup_insert_eq. unfold consumed, dequeue.
      simpl. rewrite Hmq. simpl. split_and!; [done| |].
      * by rewrite Hq, app_nil_r, <- app_assoc.
      * apply Forall_app. split; [done|]. by apply Forall_singleton.
Qed.


Lemma relay_queue_ok self ops (w : World) h :
  handlers w !! self = Some h → _message_queue h = [] →
  queue_ok self (relay self ops w).
Proof.
  intros Hh Hq. unfold relay.
  assert (H0 : queue_ok self
            (w, {| arrived := []; yielded := []; ended := false |})).
  { exists h. by rewrite Hq. }
  revert H0. generalize (w, {| arrived := []; yielded := []; ended := false |}).
  induction ops as [|op ops IH]; intros ws Hws; [done|].
  simpl. apply IH. by apply relay_step_ok.
Qed.






(** *** The same file under two identities *)

Lemma split_once_count s c l r :
  split_once s c = Some (l, r) → count s c = S (count r c).
Proof.
  revert l. induction s as [|a s IH]; intros l; simpl; [done|].
  destruct (Ascii.eqb a c); [by intros [= <- <-]|].
  destruct (split_once s c) as [[l' r']|]; [|done].
  intros [= <- <-]. by rewrite (IH l').
Qed.

Lemma decode_file_path_count rid fmt typ fid :
  decode_file_path rid = Ok (fmt, typ, fid) →
  (2 <=? count rid colon)%nat = true.
Proof.
  unfold decode_file_path.
  destruct (split_once rid colon) as [[l r]|] eqn:E1; [|done].
  destruct (split_once r colon) as [[l' r']|] eqn:E2; [|done].
  intros _. apply split_once_count in E1, E2. apply Nat.leb_le. lia.
Qed.

(** C7. A first connection to a document identity whose file id is
    already served by some loader succeeds like any other: [initialize]
    returns, the Document Room is built and registered and the handler
    holds it; the only difference is the warning event in the trace. *)
Theorem conflicting_identity_connects_with_a_warning
    self request_path cd sd (w : World) fmt typ fid p :
  let rid := last_segment request_path slash in
  registered w rid = None →
  decode_file_path rid = Ok (fmt, typ, fid) →
  get_loaders_from_file_id (file_loaders w) fid ≠ [] →
  get_path (file_id_manager w) fid = Some p →
  let w' := exec (initialize self request_path cd sd) w in
  result (initialize self request_path cd sd) w = Ok tt ∧
  trace w' = trace w ++
    [Emit {| level := WARNING; event_room := rid; event_path := Some p;
             action := None; msg := Some conflict_warning |}] ∧
  ∃ o, registered w' rid = Some (length (heap w)) ∧
       heap w' !! length (heap w) = Some o ∧
       room_id o = rid ∧ is_document o = true ∧ clients o = [] ∧
       handlers w' !! self = Some (connected rid (length (heap w)) cd).
Proof.
  intros rid E Ed Hl Ep w'. subst w'. unfold exec, result.
  rewrite (initialize_document self request_path cd sd w fmt typ fid p);
    [|done|by eapply decode_file_path_count|done|done].
  fold rid. destruct (loaders_getitem (file_loaders w) rid) as [fl l].
  unfold conflict_events, registered.
  destruct (get_loaders_from_file_id (file_loaders w) fid); [done|].
  run. rewrite Ep. split_and!; [done|done|].
  eexists. rewrite !lookup_insert_eq, lookup_app_r, Nat.sub_diag by done.
  split_and!; reflexivity.
Qed.

(** *** The end of the stream *)

(** C9 (as amended). The end of the stream is any empty queue entry:
    [__anext__] raises [StopAsyncIteration] on it and yields every other
    entry. [on_close] queues such an entry; [on_message] never does: given
    an empty frame it raises [IndexError] and leaves the state as it is,
    and any frame it queues is not empty. *)
Theorem empty_frame_is_never_queued self message (w : World) h :
  handlers w !! self = Some h →
  on_message self [] w = (Raise IndexError, w) ∧
  (handlers (exec (on_message self message) w) !! self = Some h ∨
   (message ≠ [] ∧
    handlers (exec (on_message self message) w) !! self =
      Some (enqueue message h))) ∧
  handlers (exec (on_close self) w) !! self = Some (enqueue [] h) ∧
  (∀ q, _message_queue h = [] :: q →
        result (__anext__ self) w = Raise StopAsyncIteration) ∧
  (∀ b m q, _message_queue h = (b :: m) :: q →
            result (__anext__ self) w = Ok (b :: m)).
Proof.
  intros Hh. split_and!.
  - reflexivity.
  - destruct (on_message_frame self message w h Hh)
      as [(_ & Hne & ->)|(_ & ->)]; [right|left; done].
    split; [done|]. apply lookup_insert_eq.
  - rewrite (on_close_frame self w h Hh). apply lookup_insert_eq.
  - intros q Hq. unfold result. rewrite (__anext___eq self w h Hh), Hq. done.
  - intros b m q Hq. unfold result.
    rewrite (__anext___eq self w h Hh), Hq. done.
Qed.

(** *** A refused session *)

Lemma cancel_cleaner_frame d (w : World) :
  trace (cancel_cleaner d w) = trace w ∧ heap (cancel_cleaner d w) = heap w.
Proof.
  unfold cancel_cleaner, cancelled. destruct (cleaner d) as [t|]; [|done].
  destruct (tasks w !! t) as [k|]; [|done].
  by destruct (is_pending (state k)).
Qed.

Lemma initialized_frame r o d (w : World) :
  trace (initialized r o d w) = trace w ∧
  tasks (initialized r o d w) = tasks w.
Proof. unfold initialized. by destruct (ready d). Qed.

(** On a Document Room a session id other than the server's closes the
    connection with code 1003, and [open] goes on: the room is initialised
    if it was not, and the "New client connected." event follows the
    closing in the trace. *)
Lemma open_refused_session_goes_on
    self sessionId (w : World) h r o d fmt typ fid :
  handlers w !! self = Some h → room h = Some r → heap w !! r = Some o →
  variant o = DocumentRoom d →
  decode_file_path (_room_id h) = Ok (fmt, typ, fid) →
  SERVER_SESSION ≠ default "" sessionId →
  let w' := exec (open SERVER_SESSION self sessionId) w in
  result (open SERVER_SESSION self sessionId) w = Ok tt ∧
  trace w' = trace w ++
    [Close self 1003
       ("Document session " +:+ default "" sessionId +:+ " expired");
     event INFO (_room_id h) (get_path (file_id_manager w) fid)
       (Some "initialize") (Some "New client connected.")] ∧
  ∃ o' d', heap w' !! r = Some o' ∧ variant o' = DocumentRoom d' ∧
           ready d' = true.
Proof.
  intros Hh Hr Ho Hv Hd Hs w'. subst w'. unfold exec, result.
  rewrite (open_document self sessionId w h r o d fmt typ fid) by done.
  cbn [fst snd]. split; [done|].
  destruct (initialized_frame r o d
              (cancel_cleaner d
                 (with_trace (λ t, t ++ session_check SERVER_SESSION self sessionId)
                    (opened self w)))) as [Ht _].
  destruct (cancel_cleaner_frame d
              (with_trace (λ t, t ++ session_check SERVER_SESSION self sessionId)
                 (opened self w))) as [Ht' Hh'].
  split.
  - cbn [trace with_trace]. rewrite Ht, Ht'. cbn [trace with_trace opened
      with_server with_tasks]. unfold session_check.
    rewrite bool_decide_eq_true_2 by done. by rewrite <- app_assoc.
  - cbn [heap with_trace]. unfold initialized.
    destruct (ready d) eqn:Hrd.
    + exists o, d. rewrite Hh'. done.
    + eexists _, _. cbn [heap with_file_loaders with_heap]. rewrite Hh'.
      cbn [heap with_trace opened with_server with_tasks].
      split; [apply list_lookup_insert_eq; by eapply lookup_lt_Some|].
      done.
Qed.

(** *** The cleanup task *)

Lemma run_task_cleanup_created t self (w : World) :
  tasks w !! t = Some (cleanup_task self) →
  run_task t w =
    match _clean_room self w with
    | (Ok None, w') => set_state t Done w'
    | (Ok (Some d), w') => set_state t (Sleeping (now w' + Z.max 0 d)) w'
    | (Raise e, w') => set_state t (Failed e) w'
    | (Blocked, w') => (Ok tt, w')
    end.
Proof. intros Ht. unfold run_task. by rewrite Ht. Qed.

(** With [document_cleanup_delay] disabled the cleanup task returns at
    once: it ends in its first turn and the world is otherwise as it
    was. *)
Lemma cleanup_disabled t self (w : World) h r o :
  tasks w !! t = Some (cleanup_task self) →
  handlers w !! self = Some h → room h = Some r → heap w !! r = Some o →
  is_document o = true → _cleanup_delay h = None →
  run_task t w =
    (Ok tt, with_tasks (<[t := {| coro := CleanRoom self; state := Done |}]>) w).
Proof.
  intros Ht Hh Hr Ho Hd Hc. rewrite (run_task_cleanup_created t self) by done.
  unfold _clean_room, self_room, this, deref, set_state.
  run. rewrite Hh. run. rewrite Hr. run. rewrite Ho. run. rewrite Hd. run.
  rewrite Hh. run. rewrite Hc. run. rewrite Ht. reflexivity.
Qed.

Lemma alter_as_insert {X} (f : X → X) (m : gmap nat X) i x :
  m !! i = Some x → alter f i m = <[i := f x]> m.
Proof.
  intros Hi. apply map_eq. intros j. rewrite lookup_alter, lookup_insert.
  case_decide; [subst; by rewrite Hi|done].
Qed.

(** The part of [_clean_room] after its sleep: the room is unregistered
    and stopped ([l0] is the loader mapping it leaves), the handler's
    reference dropped and "Room deleted." emitted; then, when the loader
    that the mapping gives for the room has no subscription, the access
    to [self.files] raises and the loader stays in the mapping. *)
Lemma cleanup_after_sleep self (w : World) h r fmt typ fid :
  handlers w !! self = Some h → room h = Some r →
  decode_file_path (_room_id h) = Ok (fmt, typ, fid) →
  let l0 := file_loaders (exec (room_stop r) w) in
  let (fl, l) := loaders_getitem l0 (_room_id h) in
  let w1 :=
    with_trace (λ t, t ++
        [Log "info" "Deleting Y document from memory: %s";
         Log "info" "Room %s deleted";
         event INFO (_room_id h) (get_path (file_id_manager w) fid)
           (Some "clean") (Some "Room deleted.")])
      (with_file_loaders (λ _, l)
        (with_handlers (insert self (forget_room h))
          (with_server (set_rooms (filter (λ kv, kv.2 ≠ r))) w))) in
  _clean_room_resumed self w =
    if (number_of_subscriptions fl =? 0)%nat
    then (Raise (AttributeError "files"),
          with_trace (λ t, t ++ [Log "info" "Deleting file %s"]) w1)
    else (Ok tt, w1).
Proof.
  intros Hh Hr Hd l0.
  destruct (loaders_getitem l0 (_room_id h)) as [fl l] eqn:El.
  cbv zeta. unfold _clean_room_resumed, self_room, this, delete_room,
    set_self_room.
  run. rewrite Hh. run. rewrite Hr. run.
  match goal with |- context [room_stop r ?w0] =>
    assert (Hs : room_stop r w0 = (Ok tt, with_file_loaders (λ _, l0) w0))
  end.
  { subst l0. unfold exec, room_stop. run.
    destruct (heap w !! r) as [o|]; [|by destruct w].
    destruct (variant o) as [d|]; [|by destruct w].
    destruct (ready d); [done|by destruct w]. }
  rewrite Hs. run.
  rewrite (alter_as_insert _ _ _ h) by done.
  erewrite _emit_ok; [|run; apply lookup_insert_eq|exact Hd].
  run. rewrite lookup_insert_eq. run. rewrite El. run.
  destruct (number_of_subscriptions fl =? 0)%nat; run;
    unfold event; rewrite <- ?app_assoc; reflexivity.
Qed.

(** ** Further properties of the handler *)

(** *** The identity of the room *)

Lemma count_append s1 s2 c :
  count (s1 +:+ s2) c = (count s1 c + count s2 c)%nat.
Proof. induction s1 as [|a s1 IH]; simpl; [done|]. rewrite IH. lia. Qed.

Lemma last_segment_no_separator s c : count (last_segment s c) c = 0%nat.
Proof.
  induction s as [|a s IH]; simpl; [done|].
  destruct (0 <? count s c)%nat eqn:E; [done|].
  apply Nat.ltb_ge in E.
  destruct (Ascii.eqb a c) eqn:Ea; simpl; rewrite ?Ea; lia.
Qed.

Lemma last_segment_suffix prefix rid c :
  count rid c = 0%nat → last_segment (prefix +:+ String c rid) c = rid.
Proof.
  intros Hr. induction prefix as [|a p IH]; simpl.
  - rewrite Hr. simpl. by rewrite Ascii.eqb_refl.
  - rewrite count_append. simpl. rewrite Ascii.eqb_refl.
    destruct (0 <? count p c + (1 + count rid c))%nat eqn:E; [done|].
    apply Nat.ltb_ge in E. lia.
Qed.

(** X1. Whatever the outcome, [initialize] leaves the handler with a fresh
    queue and, as its room identity, the part of the request path after
    the last ['/']: the identity holds no ['/'], and a path that ends in
    ['/'] and an identity without ['/'] gives that identity back. *)
Theorem room_id_is_the_last_path_segment self request_path cd sd (w : World) :
  ∃ h, handlers (exec (initialize self request_path cd sd) w) !! self = Some h ∧
       _room_id h = last_segment request_path slash ∧
       count (_room_id h) slash = 0%nat ∧
       _message_queue h = [] ∧ _cleanup_delay h = cd ∧
       ∀ prefix rid, request_path = prefix +:+ String slash rid →
                     count rid slash = 0%nat → _room_id h = rid.
Proof.
  assert (Hh : ∃ h, handlers (exec (initialize self request_path cd sd) w)
                      !! self = Some h ∧
                    _room_id h = last_segment request_path slash ∧
                    _message_queue h = [] ∧ _cleanup_delay h = cd).
  { unfold exec.
    destruct (initialize_cases self request_path cd sd w)
      as [(r & _ & ->)|[(_ & o & w1 & _ & _ & _ & _ & ->)|(_ & w1 & _ & ->)]];
      eexists; (split; [run; apply lookup_insert_eq|done]). }
  destruct Hh as (h & Hh & Hid & Hq & Hd). exists h.
  split_and!; try done.
  - rewrite Hid. apply last_segment_no_separator.
  - intros prefix rid -> Hr. rewrite Hid. by apply last_segment_suffix.
Qed.

(** X2. When the file id of a new document identity does not resolve to a
    path, [initialize] raises [TypeError]: no room is built or registered
    and the handler has no room, but the loader mapping has already been
    subscripted for the identity. *)
Theorem unresolved_file_id_raises_after_the_loader_lookup
    self request_path cd sd (w : World) fmt typ fid :
  let rid := last_segment request_path slash in
  registered w rid = None →
  decode_file_path rid = Ok (fmt, typ, fid) →
  get_path (file_id_manager w) fid = None →
  let w' := exec (initialize self request_path cd sd) w in
  result (initialize self request_path cd sd) w = Raise TypeError ∧
  heap w' = heap w ∧ registered w' rid = None ∧
  handlers w' !! self = Some (new_handler rid cd) ∧
  file_loaders w' = (loaders_getitem (file_loaders w) rid).2.
Proof.
  intros rid E Ed Ep w'. subst w'. unfold exec, result.
  rewrite (initialize_document_unresolved self request_path cd sd w fmt typ fid);
    [|done|by eapply decode_file_path_count|done|done].
  fold rid. unfold registered in *. run.
  split_and!; try done. apply lookup_insert_eq.
Qed.

(** X3. A connection to a registered identity only takes the registered
    room: no room is built, and neither the registry, the loaders, the
    tasks nor the trace change (no warning is emitted, whatever loaders
    serve the file). *)
Theorem registered_identity_is_joined_silently
    self request_path cd sd (w : World) r :
  let rid := last_segment request_path slash in
  registered w rid = Some r →
  let w' := exec (initialize self request_path cd sd) w in
  result (initialize self request_path cd sd) w = Ok tt ∧
  handlers w' !! self = Some (connected rid r cd) ∧
  heap w' = heap w ∧ websocket_server w' = websocket_server w ∧
  file_loaders w' = file_loaders w ∧ tasks w' = tasks w ∧
  trace w' = trace w.
Proof.
  intros rid E w'. subst w'. unfold exec, result.
  rewrite (initialize_known self request_path cd sd w r E). run.
  split_and!; try done. apply lookup_insert_eq.
Qed.

(** X4. A first connection to an identity with fewer than two [':'] always
    succeeds: the Transient Room is built and registered without the file
    id manager or the loaders being consulted and without any event. *)
Theorem transient_identity_always_connects
    self request_path cd sd (w : World) :
  let rid := last_segment request_path slash in
  registered w rid = None → (count rid colon < 2)%nat →
  let w' := exec (initialize self request_path cd sd) w in
  result (initialize self request_path cd sd) w = Ok tt ∧
  heap w' = heap w ++ [new_TransientRoom rid] ∧
  registered w' rid = Some (length (heap w)) ∧
  handlers w' !! self = Some (connected rid (length (heap w)) cd) ∧
  file_loaders w' = file_loaders w ∧ trace w' = trace w.
Proof.
  intros rid E Hc w'. subst w'. unfold exec, result.
  rewrite (initialize_transient self request_path cd sd w);
    [|done|by apply Nat.leb_gt].
  fold rid. unfold registered. run.
  split_and!; try done; apply lookup_insert_eq.
Qed.

(** *** The queue and the counter *)

(** X5. [recv] takes the oldest entry of the queue exactly as [__anext__]
    does, but returns it whatever it is: the two differ only on the empty
    entry, which [recv] returns and [__anext__] turns into the end of the
    iteration; on an empty queue both wait and change nothing. *)
Theorem recv_returns_what_the_iterator_takes self (w : World) h :
  handlers w !! self = Some h →
  match _message_queue h with
  | [] => recv self w = (Blocked, w) ∧ __anext__ self w = (Blocked, w)
  | entry :: _ =>
      recv self w = (Ok entry, with_handlers (insert self (dequeue h)) w) ∧
      exec (__anext__ self) w = exec (recv self) w ∧
      (entry ≠ [] → result (__anext__ self) w = Ok entry) ∧
      (entry = [] → result (__anext__ self) w = Raise StopAsyncIteration)
  end.
Proof.
  intros Hh. pose proof (__anext___eq self w h Hh) as Hn.
  assert (Hr : recv self w =
               match _message_queue h with
               | [] => (Blocked, w)
               | entry :: _ =>
                   (Ok entry, with_handlers (insert self (dequeue h)) w)
               end).
  { unfold recv, queue_get, this, set_message_queue, dequeue.
    run. rewrite Hh. run.
    destruct (_message_queue h) as [|m q] eqn:Hq; [done|]. run.
    rewrite (alter_as_insert _ _ _ h) by done. by rewrite ?Hq. }
  destruct (_message_queue h) as [|entry q]; [done|].
  unfold exec, result. rewrite Hr, Hn.
  split_and!; [done|by destruct entry|by destruct entry|by intros ->].
Qed.

Lemma on_message_counts self message (w : World) h :
  handlers w !! self = Some h →
  (result (on_message self message) w = Ok false ∧
   ypatch_nb (websocket_server (exec (on_message self message) w)) =
     ypatch_nb (websocket_server w) + 1)
  ∨ ((∃ e, result (on_message self message) w = Raise e) ∧
     ypatch_nb (websocket_server (exec (on_message self message) w)) =
       ypatch_nb (websocket_server w)).
Proof.
  intros Hh. destruct message as [|b payload].
  { right. split; [by eexists|done]. }
  destruct (is_awareness b) eqn:Hb.
  2:{ left. unfold exec, result.
      rewrite (on_message_other self b payload w h) by done. done. }
  unfold is_awareness in Hb. unfold exec, result, on_message. rewrite Hb.
  unfold self_room, this, deref, update_room.
  run. rewrite Hh. run.
  destruct (room h) as [r|]; run; [|right; split; [by eexists|done]].
  destruct (heap w !! r) as [o|] eqn:Ho; run;
    [|right; split; [by eexists|done]].
  destruct (get_changes (awareness o) payload) as [[e|ch] a]; run;
    rewrite ?Ho; [right; split; [by eexists|done]|].
  set (w1 := {| websocket_server := _ |}).
  destruct (join_users_frame (added ch) 0 (states ch) w1)
    as (out & cu & evs & -> & Hout).
  destruct out as [[]|e|]; [|right; split; [by eexists|done]|done].
  destruct (leave_users_eq (removed ch) (directory_set cu evs w1))
    as [evs2 ->]. run.
  erewrite put_nowait_eq; [|run; exact Hh]. left. done.
Qed.

Lemma on_close_keeps_counter self (w : World) h :
  handlers w !! self = Some h →
  ypatch_nb (websocket_server (exec (on_close self) w)) =
    ypatch_nb (websocket_server w).
Proof.
  intros Hh. unfold exec, on_close.
  unfold mbind at 1, M_bind at 1. rewrite (put_nowait_eq self [] w h Hh).
  unfold self_room, this, deref, create_task, update_room.
  run. rewrite lookup_insert_eq. run.
  destruct (room h) as [r|]; run; [|done].
  destruct (heap w !! r) as [o|] eqn:Ho; run; [|done].
  destruct (variant o) as [d|]; [|done].
  case_bool_decide; [|done]. run. by rewrite ?Ho.
Qed.

(** The number of queued frames in a list of queue entries. *)
Lemma frames_snoc (entries : list (list byte)) entry :
  length (filter (λ m, m ≠ []) (entries ++ [entry])) =
    (length (filter (λ m, m ≠ []) entries) +
     (if decide (entry ≠ []) then 1 else 0))%nat.
Proof.
  rewrite filter_app, length_app. f_equal.
  destruct (decide (entry ≠ [])).
  - by rewrite filter_cons_True.
  - by rewrite filter_cons_False.
Qed.

(** The counter against the entries put in the queue. *)
Lemma patch_counter_arrived self ops (w : World) h :
  handlers w !! self = Some h →
  let ws := relay self ops w in
  ypatch_nb (websocket_server ws.1) =
    ypatch_nb (websocket_server w) +
    Z.of_nat (length (filter (λ m, m ≠ []) (arrived ws.2))).
Proof.
  intros Hh ws. subst ws. unfold relay.
  set (ws0 := (w, {| arrived := []; yielded := []; ended := false |})).
  assert (H0 : (∃ h', handlers ws0.1 !! self = Some h') ∧
               ypatch_nb (websocket_server ws0.1) =
                 ypatch_nb (websocket_server w) +
                 Z.of_nat (length (filter (λ m, m ≠ []) (arrived ws0.2)))).
  { split; [by exists h|]. simpl. lia. }
  clearbody ws0. revert ws0 H0.
  induction ops as [|op ops IH]; intros ws0 H0; [by destruct H0|].
  simpl. apply IH. destruct ws0 as [w0 s0]. destruct H0 as [[h0 Hh0] Hc].
  simpl in Hh0, Hc.
  destruct op as [message| |]; simpl.
  - destruct (on_message_frame self message w0 h0 Hh0)
      as [(Hres & Hne & Hhd)|([e Hres] & Hhd)];
      destruct (on_message_counts self message w0 h0 Hh0)
        as [(Hres' & Hy)|([e' Hres'] & Hy)];
      unfold exec, result in *;
      destruct (on_message self message w0) as [out w']; simpl in *;
      subst out; try discriminate.
    + simpl. split; [exists (enqueue message h0); by rewrite Hhd, lookup_insert_eq|].
      rewrite frames_snoc, decide_True by done. lia.
    + assert (Hgoal : (∃ h', handlers w' !! self = Some h') ∧
                ypatch_nb (websocket_server w') =
                  ypatch_nb (websocket_server w) +
                  Z.of_nat (length (filter (λ m, m ≠ []) (arrived s0)))).
      { split; [exists h0; by rewrite Hhd|lia]. }
      by destruct e.
  - split.
    + exists (enqueue [] h0). rewrite (on_close_frame self w0 h0 Hh0).
      apply lookup_insert_eq.
    + simpl. rewrite (on_close_keeps_counter self w0 h0 Hh0).
      rewrite frames_snoc, decide_False by (intros Hn; by apply Hn). lia.
  - destruct (ended s0); [split; [by exists h0|done]|].
    rewrite (__anext___eq self w0 h0 Hh0).
    destruct (_message_queue h0) as [|[|b m] q]; simpl;
      (split; [|done]); eexists; first [exact Hh0|apply lookup_insert_eq].
Qed.

(** X6. However frames arrive, the connection closes and the relay loop asks,
    [ypatch_nb] has gone up by exactly the number of frames that went
    through the queue of the handler: the non-empty entries the iterator
    has taken and those the queue still holds. A frame that makes
    [on_message] raise is neither queued nor counted, and the entry that
    [on_close] puts is not counted. *)
Theorem patch_counter_counts_the_queued_frames self ops (w : World) h :
  handlers w !! self = Some h → _message_queue h = [] →
  let ws := relay self ops w in
  ∃ h', handlers ws.1 !! self = Some h' ∧
    ypatch_nb (websocket_server ws.1) =
      ypatch_nb (websocket_server w) +
      Z.of_nat (length (filter (λ m, m ≠ [])
                          (consumed ws.2 ++ _message_queue h'))).
Proof.
  intros Hh Hq ws.
  destruct (relay_queue_ok self ops w h Hh Hq) as (h' & Hh' & Harr & _).
  fold ws in Hh', Harr. exists h'. split; [done|].
  rewrite <- Harr. by apply (patch_counter_arrived self ops w h).
Qed.

(** *** The directory when a frame is refused, and after a visit *)

Lemma join_users_app users1 : ∀ users2 i sts (w : World),
  join_users i (users1 ++ users2) sts w =
    match join_users i users1 sts w with
    | (Ok _, w') => join_users (i + length users1) users2 sts w'
    | other => other
    end.
Proof.
  induction users1 as [|user users1 IH]; intros users2 i sts w.
  { simpl. by rewrite Nat.add_0_r. }
  cbn [app join_users length]. run.
  destruct (sts !! i) as [u|]; run; [|done].
  unfold dict_contains.
  destruct (dict_get u "user") as [x|] eqn:Hx; run; rewrite ?Hx; run.
  - destruct x as [| | | | |m]; run; try done.
    destruct (dict_get m "name") as [nm|]; run; [|done].
    rewrite IH. by rewrite Nat.add_succ_comm.
  - rewrite IH. by rewrite Nat.add_succ_comm.
Qed.

Lemma join_users_stops_at_nameless users1 :
  ∀ sts (w : World) bad_user rest bad v,
  (length users1 <= length sts)%nat →
  forallb well_formed_state (take (length users1) sts) = true →
  sts !! length users1 = Some bad →
  dict_get bad "user" = Some (JObj v) → dict_get v "name" = None →
  ∃ evs, join_users 0 (users1 ++ bad_user :: rest) sts w =
    (Raise (KeyError "name"),
     directory_set (directory_join users1 sts
                      (connected_users (websocket_server w))) evs w).
Proof.
  intros sts w bad_user rest bad v Hlen Hwf Hbad Hu Hn.
  destruct (join_users_eq users1 0 sts w) as [evs Hj];
    [by rewrite drop_0..|].
  rewrite drop_0 in Hj. exists evs.
  rewrite join_users_app, Hj. cbn [join_users Nat.add]. run.
  rewrite Hbad. run. unfold dict_contains. rewrite Hu. run.
  rewrite ?Hu. run. by rewrite ?Hn.
Qed.

(** X7. When the state at position [k] of an awareness update has a ["user"]
    object without ["name"], [on_message] raises [KeyError]: the frame is
    not queued and not counted, yet the awareness of the room has taken
    the update and the participants before position [k] are already in
    the directory. *)
Theorem nameless_user_leaves_the_directory_half_updated
    self message_type payload (w : World) h r o ch a k bad v :
  handlers w !! self = Some h → room h = Some r → heap w !! r = Some o →
  is_awareness message_type = true →
  get_changes (awareness o) payload = (inr ch, a) →
  (k < length (added ch))%nat →
  forallb well_formed_state (take k (states ch)) = true →
  states ch !! k = Some bad →
  dict_get bad "user" = Some (JObj v) → dict_get v "name" = None →
  let w' := exec (on_message self (message_type :: payload)) w in
  result (on_message self (message_type :: payload)) w =
    Raise (KeyError "name") ∧
  connected_users (websocket_server w') =
    directory_join (take k (added ch)) (states ch)
      (connected_users (websocket_server w)) ∧
  handlers w' = handlers w ∧
  ypatch_nb (websocket_server w') = ypatch_nb (websocket_server w) ∧
  heap w' !! r = Some (set_awareness a o).
Proof.
  intros Hh Hr Ho Hb Hg Hk Hwf Hbad Hu Hn w'. subst w'.
  unfold is_awareness in Hb.
  destruct (lookup_lt_is_Some_2 (added ch) k Hk) as [bad_user Hbu].
  pose proof (take_drop_middle _ _ _ Hbu) as Hsplit.
  assert (Hlk : length (take k (added ch)) = k).
  { rewrite length_take. lia. }
  set (w1 := with_heap (<[r := set_awareness a o]>) w).
  destruct (join_users_stops_at_nameless (take k (added ch)) (states ch) w1
              bad_user (drop (S k) (added ch)) bad v) as [evs Hj].
  { rewrite Hlk. apply lookup_lt_Some in Hbad. lia. }
  { by rewrite Hlk. }
  { by rewrite Hlk. }
  { done. }
  { done. }
  rewrite Hsplit in Hj.
  unfold exec, result, on_message. rewrite Hb.
  unfold self_room, this, deref, update_room.
  run. rewrite Hh. run. rewrite Hr. run. rewrite Ho. run. rewrite Hg. run.
  rewrite Ho.
  match goal with |- context [join_users 0 _ _ ?w0] => change w0 with w1 end.
  rewrite Hj. unfold directory_set. subst w1. run.
  split_and!; try done.
  apply list_lookup_insert_eq. by eapply lookup_lt_Some.
Qed.

Lemma directory_leave_lookup users : ∀ (cu : gmap N json) k,
  directory_leave users cu !! k = if decide (k ∈ users) then None else cu !! k.
Proof.
  induction users as [|u users IH]; intros cu k.
  { unfold directory_leave. cbn [foldl].
    by rewrite decide_False by apply not_elem_of_nil. }
  unfold directory_leave in *. cbn [foldl]. rewrite IH.
  destruct (decide (k ∈ users)) as [Hin|Hin].
  - rewrite decide_True; [done|]. (apply elem_of_cons; by right).
  - destruct (decide (k = u)) as [->|Hne].
    + rewrite decide_True by (apply elem_of_cons; by left). apply lookup_delete_eq.
    + rewrite decide_False; [by apply lookup_delete_ne|].
      intros [->|?]%elem_of_cons; done.
Qed.

Lemma directory_join_lookup_other users : ∀ sts (cu : gmap N json) k,
  k ∉ users → directory_join users sts cu !! k = cu !! k.
Proof.
  induction users as [|u users IH]; intros sts cu k Hk; [done|].
  destruct sts as [|s sts]; [done|]. simpl.
  rewrite IH; [|intros ?; apply Hk; (apply elem_of_cons; by right)].
  destruct (display_name s); [|done].
  apply lookup_insert_ne. intros ->. apply Hk. apply elem_of_cons. by left.
Qed.
Lemma queued_directory self message h (w : World) :
  connected_users (websocket_server (queued self message h w)) =
    connected_users (websocket_server w).
Proof. reflexivity. Qed.

Lemma queued_handlers self message h (w : World) :
  handlers (queued self message h w) =
    <[self := enqueue message h]> (handlers w).
Proof. reflexivity. Qed.

Lemma queued_counter self message h (w : World) :
  ypatch_nb (websocket_server (queued self message h w)) =
    ypatch_nb (websocket_server w) + 1.
Proof. reflexivity. Qed.

Lemma directory_set_directory cu evs (w : World) :
  connected_users (websocket_server (directory_set cu evs w)) = cu.
Proof. reflexivity. Qed.

Lemma directory_set_counter cu evs (w : World) :
  ypatch_nb (websocket_server (directory_set cu evs w)) =
    ypatch_nb (websocket_server w).
Proof. reflexivity. Qed.

Lemma with_heap_server f (w : World) :
  websocket_server (with_heap f w) = websocket_server w.
Proof. reflexivity. Qed.

(** X8. A visit leaves no trace in the directory: when a frame announces
    participants that the directory does not know and a later frame
    removes them, the directory is what it was before the two frames, and
    both frames are queued and counted. *)
Theorem join_then_leave_restores_the_directory
    self b1 p1 b2 p2 (w : World) h r o ch1 a1 ch2 a2 :
  handlers w !! self = Some h → room h = Some r → heap w !! r = Some o →
  is_awareness b1 = true → is_awareness b2 = true →
  get_changes (awareness o) p1 = (inr ch1, a1) → well_formed ch1 = true →
  get_changes a1 p2 = (inr ch2, a2) →
  removed ch1 = [] → added ch2 = [] → removed ch2 = added ch1 →
  (∀ u, u ∈ added ch1 → connected_users (websocket_server w) !! u = None) →
  let w' := exec (on_message self (b1 :: p1);;
                  on_message self (b2 :: p2)) w in
  connected_users (websocket_server w') = connected_users (websocket_server w) ∧
  _message_queue <$> handlers w' !! self =
    Some (_message_queue h ++ [b1 :: p1; b2 :: p2]) ∧
  ypatch_nb (websocket_server w') = ypatch_nb (websocket_server w) + 2.
Proof.
  intros Hh Hr Ho Hb1 Hb2 Hg1 Hwf1 Hg2 Hr1 Ha2 Hr2 Hnew w'. subst w'.
  destruct (on_message_awareness self b1 p1 w h r o ch1 a1) as [evs1 H1];
    [done..|].
  set (w1 := queued self (b1 :: p1) h _) in H1.
  destruct (on_message_awareness self b2 p2 w1 (enqueue (b1 :: p1) h) r
              (set_awareness a1 o) ch2 a2) as [evs2 H2].
  { subst w1. unfold queued. run. apply lookup_insert_eq. }
  { done. }
  { subst w1. unfold queued, directory_set. run.
    apply list_lookup_insert_eq. by eapply lookup_lt_Some. }
  { done. }
  { done. }
  { unfold well_formed. by rewrite Ha2. }
  unfold exec. unfold mbind, M_bind. rewrite H1, H2.
  subst w1. cbn [snd].
  repeat first [rewrite queued_directory | rewrite queued_handlers
               | rewrite queued_counter | rewrite directory_set_directory
               | rewrite directory_set_counter | rewrite with_heap_server].
  unfold directory_after. rewrite Hr1, Ha2, Hr2. split_and!.
  - apply map_eq. intros k. cbn [directory_leave foldl directory_join].
    rewrite directory_leave_lookup.
    destruct (decide (k ∈ added ch1)) as [Hin|Hin]; [by rewrite Hnew|].
    by rewrite directory_join_lookup_other.
  - rewrite lookup_insert_eq. simpl. by rewrite <- app_assoc.
  - lia.
Qed.

(** *** The session a client is given *)

(** X9. Whatever [put] answers with, it carries the server's session under
    ["sessionId"]; a handler that opens a Document Room with that session
    is not closed: [open] returns and the only thing it adds to the trace
    is the "New client connected." event. *)
Theorem issued_session_is_accepted
    (repr : string → string) body path (m m' : F) resp
    self (w : World) h r o d fmt typ fid :
  put SERVER_SESSION repr body path m = (Ok resp, m') →
  handlers w !! self = Some h → room h = Some r → heap w !! r = Some o →
  variant o = DocumentRoom d →
  decode_file_path (_room_id h) = Ok (fmt, typ, fid) →
  ∃ sid, subscript (data resp) "sessionId" = Ok (JStr sid) ∧
    (status resp = 200 ∨ status resp = 201) ∧
    result (open SERVER_SESSION self (Some sid)) w = Ok tt ∧
    trace (exec (open SERVER_SESSION self (Some sid)) w) =
      trace w ++ [event INFO (_room_id h) (get_path (file_id_manager w) fid)
                    (Some "initialize") (Some "New client connected.")].
Proof.
  intros Hput Hh Hr Ho Hv Hd. exists SERVER_SESSION.
  assert (Hresp : ∃ st format content_type idx,
             (st = 200 ∨ st = 201) ∧
             resp = {| status := st;
                       data := session_data SERVER_SESSION format
                                 content_type idx |}).
  { revert Hput. unfold put.
    destruct (subscript body "format") as [format| |]; [|done..].
    destruct (subscript body "type") as [content_type| |]; [|done..].
    destruct (get_id m path) as [idx|].
    - intros [= <- _]. eexists _, _, _, _. split; [by left|done].
    - destruct (index m path) as [[idx|] m1]; [|done].
      intros [= <- _]. eexists _, _, _, _. split; [by right|done]. }
  destruct Hresp as (st & format & content_type & idx & Hst & ->).
  split; [reflexivity|]. split; [exact Hst|].
  unfold exec, result.
  rewrite (open_document self (Some SERVER_SESSION) w h r o d fmt typ fid)
    by done.
  cbn [fst snd]. split; [done|].
  destruct (initialized_frame r o d
              (cancel_cleaner d
                 (with_trace (λ t, t ++ session_check SERVER_SESSION self
                                          (Some SERVER_SESSION))
                    (opened self w)))) as [Ht _].
  destruct (cancel_cleaner_frame d
              (with_trace (λ t, t ++ session_check SERVER_SESSION self
                                       (Some SERVER_SESSION))
                 (opened self w))) as [Ht' _].
  cbn [trace with_trace]. rewrite Ht, Ht'.
  cbn [trace with_trace opened with_server with_tasks]. unfold session_check.
  cbn [default]. rewrite bool_decide_eq_false_2 by (intros Hn; by apply Hn).
  by rewrite app_nil_r.
Qed.

(** *** The end of a room *)

(** X10. A Transient Room is never cleaned up: [on_close] of its last client
    creates no task and leaves room and registry alone, and a cleanup task
    that would run for such a handler fails its assertion before it
    touches anything. *)
Theorem transient_room_is_never_cleaned self (w : World) h r o :
  handlers w !! self = Some h → room h = Some r → heap w !! r = Some o →
  variant o = TransientRoom →
  on_close self w =
    (Ok tt, with_handlers (insert self (enqueue [] h)) w) ∧
  _clean_room self w = (Raise AssertionError, w) ∧
  ∀ t, tasks w !! t = Some (cleanup_task self) →
       run_task t w =
         (Ok tt, with_tasks (<[t := {| coro := CleanRoom self;
                                       state := Failed AssertionError |}]>) w).
Proof.
  intros Hh Hr Ho Hv.
  assert (Hc : _clean_room self w = (Raise AssertionError, w)).
  { unfold _clean_room, self_room, this, deref, is_document.
    run. rewrite Hh. run. rewrite Hr. run. rewrite Ho. run. by rewrite Hv. }
  split_and!.
  - rewrite (on_close_eq self w h r o) by done. by rewrite Hv.
  - exact Hc.
  - intros t Ht. rewrite (run_task_cleanup_created t self) by done.
    rewrite Hc. unfold set_state. run. by rewrite Ht.
Qed.

Lemma registry_without r (w : World) rid :
  registered w rid = Some r →
  filter (λ kv : string * nat, kv.2 ≠ r) (rooms (websocket_server w)) !! rid
    = None.
Proof.
  intros Hr. apply map_lookup_filter_None. right.
  intros x Hx. unfold registered in Hr. simpl. congruence.
Qed.

(** X12. After the cleanup of a Document Room, whether it ended with or
    without an error, the next connection to the same identity builds a
    new room object: it is registered in place of the old one, has no
    client and an empty, uninitialised document, while the old object is
    still what it was. *)
Theorem reconnection_after_cleanup_builds_a_new_room
    self (w : World) h r o fmt typ fid p self2 request_path cd sd :
  handlers w !! self = Some h → room h = Some r → heap w !! r = Some o →
  registered w (_room_id h) = Some r →
  decode_file_path (_room_id h) = Ok (fmt, typ, fid) →
  get_path (file_id_manager w) fid = Some p →
  last_segment request_path slash = _room_id h →
  let w1 := exec (_clean_room_resumed self) w in
  let w2 := exec (initialize self2 request_path cd sd) w1 in
  registered w1 (_room_id h) = None ∧
  result (initialize self2 request_path cd sd) w1 = Ok tt ∧
  registered w2 (_room_id h) = Some (length (heap w)) ∧
  length (heap w) ≠ r ∧
  heap w2 !! r = Some o ∧
  ∃ o' d', heap w2 !! length (heap w) = Some o' ∧
           variant o' = DocumentRoom d' ∧ clients o' = [] ∧
           ready d' = false ∧ document d' = new_document ∧
           cleaner d' = None.
Proof.
  intros Hh Hr Ho Hreg Hd Hp Hpath w1 w2.
  assert (H1 : registered w1 (_room_id h) = None ∧ heap w1 = heap w ∧
               file_id_manager w1 = file_id_manager w).
  { subst w1. unfold exec.
    pose proof (cleanup_after_sleep self w h r fmt typ fid Hh Hr Hd) as Hc.
    cbv zeta in Hc.
    destruct (loaders_getitem (file_loaders (exec (room_stop r) w))
                (_room_id h)) as [fl l].
    rewrite Hc.
    destruct (number_of_subscriptions fl =? 0)%nat; unfold registered; run;
      (split; [by apply registry_without|done]). }
  destruct H1 as (Hreg1 & Hheap1 & Hfim1).
  assert (Hlt : (r < length (heap w))%nat) by by eapply lookup_lt_Some.
  assert (Hinit : initialize self2 request_path cd sd w1 = _) by
    (apply (initialize_document self2 request_path cd sd w1 fmt typ fid p);
     rewrite ?Hpath, ?Hfim1; [done|by eapply decode_file_path_count|done..]).
  cbv zeta in Hinit. rewrite Hpath in Hinit.
  subst w2. unfold exec, result. rewrite Hinit.
  destruct (loaders_getitem (file_loaders w1) (_room_id h)) as [fl l].
  unfold registered. run. rewrite Hheap1.
  split_and!; try done.
  - apply lookup_insert_eq.
  - lia.
  - by apply lookup_app_l_Some.
  - eexists _, _. rewrite lookup_app_r, Nat.sub_diag by done.
    split_and!; reflexivity.
Qed.

(** *** Refusing a caller, writing to a client *)

(** X13. [get] for a caller that is not authenticated logs a warning and raises
    the HTTP error 403 without running the upgrade; nothing else changes,
    so the room that [initialize] has registered for the handler stays
    registered, with the handler holding it, and no task exists for it. *)
Theorem unauthenticated_get_leaves_the_room_registered
    (upgrade : nat → M unit) self request_path cd sd (w : World) :
  result (initialize self request_path cd sd) w = Ok tt →
  let w1 := exec (initialize self request_path cd sd) w in
  let w2 := exec (get upgrade self None) w1 in
  result (get upgrade self None) w1 = Raise (HTTPError 403 "") ∧
  trace w2 = trace w1 ++
    [Log "warning" "Couldn't authenticate WebSocket connection"] ∧
  heap w2 = heap w1 ∧ handlers w2 = handlers w1 ∧ tasks w2 = tasks w ∧
  ∃ r hd, registered w2 (last_segment request_path slash) = Some r ∧
          handlers w2 !! self = Some hd ∧ room hd = Some r.
Proof.
  intros Hok w1 w2.
  destruct (initialize_registers self request_path cd sd w Hok)
    as (r & hd & Hreg & Hh & Hr). fold w1 in Hreg, Hh.
  assert (Ht : tasks w1 = tasks w).
  { subst w1. unfold exec.
    destruct (initialize_cases self request_path cd sd w)
      as [(r' & _ & ->)|[(_ & o & w0 & (_ & _ & _ & Ht) & _ & _ & _ & ->)
                        |(_ & w0 & (_ & _ & _ & Ht) & ->)]]; by run. }
  subst w2. unfold get, exec, result. run.
  split_and!; try done. by exists r, hd.
Qed.

(** X14. [send] never raises: when the write raises, the exception is logged
    at debug level and dropped, the state being the one the write left;
    when the write succeeds, [send] is the write. *)
Theorem send_drops_a_failed_write
    (write_message : nat → list byte → M unit) self message (w : World) :
  result (write_message self message) w ≠ Blocked →
  result (send write_message self message) w = Ok tt ∧
  (result (write_message self message) w = Ok tt →
   exec (send write_message self message) w =
     exec (write_message self message) w) ∧
  (∀ e, result (write_message self message) w = Raise e →
   exec (send write_message self message) w =
     with_trace (λ t, t ++ [Log "debug" "Failed to write message"])
       (exec (write_message self message) w)).
Proof.
  unfold send, try_except, exec, result.
  destruct (write_message self message w) as [[[]|e|] w']; run; [| |done];
    intros _; split_and!; try done.
Qed.

End Theory.

(** ** Properties of the session endpoint *)

Section SessionTheory.

Context {F : Type} `{!BaseFileIdManager F}.
Variable SERVER_SESSION : string.
Variable repr : string → string.

Lemma put_known body path (m : F) format content_type idx :
  subscript body "format" = Ok format →
  subscript body "type" = Ok content_type →
  get_id m path = Some idx →
  put SERVER_SESSION repr body path m =
    (Ok {| status := 200;
           data := session_data SERVER_SESSION format content_type idx |}, m).
Proof. intros Hf Ht Hg. unfold put. by rewrite Hf, Ht, Hg. Qed.

Lemma put_again_known n body path (m : F) format content_type idx :
  subscript body "format" = Ok format →
  subscript body "type" = Ok content_type →
  get_id m path = Some idx →
  put_again SERVER_SESSION repr n body path m =
    (replicate n
       (Ok {| status := 200;
              data := session_data SERVER_SESSION format content_type idx |}),
     m).
Proof.
  intros Hf Ht Hg. induction n as [|n IH]; [done|].
  simpl. rewrite (put_known body path m format content_type idx) by done.
  by rewrite IH.
Qed.

(** C5. For a path without an index entry: if the manager can index it,
    the call answers 201 with the new id and every later call for the path
    answers 200 with that same id and changes nothing; if the path does
    not exist, the call fails with the HTTP error 404 and the manager is
    as before. *)
Theorem session_endpoint_statuses `{!FileIdContract}
    body path (m : F) format content_type :
  subscript body "format" = Ok format →
  subscript body "type" = Ok content_type →
  get_id m path = None →
  (∀ idx m1, index m path = (Some idx, m1) →
     put SERVER_SESSION repr body path m =
       (Ok {| status := 201;
              data := session_data SERVER_SESSION format content_type idx |},
        m1) ∧
     ∀ n, put_again SERVER_SESSION repr n body path m1 =
       (replicate n
          (Ok {| status := 200;
                 data := session_data SERVER_SESSION format content_type idx |}),
        m1)) ∧
  (∀ m1, index m path = (None, m1) →
     put SERVER_SESSION repr body path m =
       (Raise (HTTPError 404 ("File " +:+ repr path +:+ " does not exist")),
        m)).
Proof.
  intros Hf Ht Hg. split.
  - intros idx m1 Hi. split.
    + unfold put. by rewrite Hf, Ht, Hg, Hi.
    + intros n. apply put_again_known; [done..|].
      by eapply index_then_get_id.
  - intros m1 Hi. unfold put. rewrite Hf, Ht, Hg, Hi.
    by rewrite (index_missing _ _ _ Hi).
Qed.

(** X15. A body that is not an object, or that lacks ["format"] or ["type"],
    makes [put] raise before the file id manager is asked anything: the
    manager is unchanged even for a path that the call would have
    indexed. *)
Theorem malformed_body_fails_before_indexing body path (m : F) :
  (∀ v, subscript body "format" ≠ Ok v) ∨ (∀ v, subscript body "type" ≠ Ok v) →
  ∃ e, put SERVER_SESSION repr body path m = (Raise e, m) ∧
       (e = TypeError ∨ e = KeyError "format" ∨ e = KeyError "type").
Proof.
  intros Hbad. unfold put.
  assert (Hsub : ∀ k, (∃ v, subscript body k = Ok v) ∨
                      subscript body k = Raise TypeError ∨
                      subscript body k = Raise (KeyError k)).
  { intros k. destruct body as [| | | | |d]; simpl; eauto.
    destruct (dict_get d k); eauto. }
  destruct (Hsub "format") as [[v Hf]|[Hf|Hf]]; rewrite Hf; [|by eauto..].
  destruct (Hsub "type") as [[v' Ht]|[Ht|Ht]]; rewrite Ht; [|by eauto..].
  destruct Hbad as [Hbad|Hbad]; [by destruct (Hbad v)|by destruct (Hbad v')].
Qed.

(** X16. Every answer of [put] carries, under ["fileId"], the id that the file
    id manager has for the path once the call is over, and its status
    tells whether the id existed before (200) or not (201). *)
Theorem put_answers_the_indexed_id `{!FileIdContract}
    body path (m m' : F) resp :
  put SERVER_SESSION repr body path m = (Ok resp, m') →
  ∃ idx, subscript (data resp) "fileId" = Ok (JStr idx) ∧
         get_id m' path = Some idx ∧
         (status resp = 200 ∧ get_id m path = Some idx ∧ m' = m ∨
          status resp = 201 ∧ get_id m path = None ∧
            index m path = (Some idx, m')).
Proof.
  unfold put.
  destruct (subscript body "format") as [format| |]; [|done..].
  destruct (subscript body "type") as [content_type| |]; [|done..].
  destruct (get_id m path) as [idx|] eqn:Hg.
  - intros [= <- <-]. exists idx. split_and!; [done|done|by left].
  - destruct (index m path) as [[idx|] m1] eqn:Hi; [|done].
    intros [= <- <-]. exists idx. split_and!; [done| |by right].
    by eapply index_then_get_id.
Qed.

End SessionTheory.

(** ** Runs on the scenario server *)

Import Fake Scenario Visits.

(** C1 on the scenario: three callers, two for the notebook, on the
    server at its start; one room is constructed for the notebook, the
    one the registry holds. *)
Lemma one_room_per_identity_witness :
  ∃ r o, constructed_for start (connect_all callers start) notebook = [o] ∧
         registered (connect_all callers start) notebook = Some r ∧
         heap (connect_all callers start) !! r = Some o.
Proof.
  refine (match proj2 (proj2 (proj2
                  (one_room_per_identity start callers notebook))) _ _ _ with
          | ex_intro _ r (ex_intro _ o (conj H1 (conj H2 (conj H3 _)))) =>
              ex_intro _ r (ex_intro _ o (conj H1 (conj H2 H3)))
          end).
  - vm_compute; reflexivity.
  - vm_compute; reflexivity.
  - exists {| conn_self := 1; conn_path := url notebook;
              conn_cleanup_delay := Some 60; conn_save_delay := Some 1 |}.
    split; [|vm_compute; reflexivity].
    apply elem_of_cons. by left.
Defined.

(** On the scenario: handler 1 is the last client of the notebook in
    [live]; in [reconnecting] its cleanup task sleeps when handler 2
    opens. *)
Lemma cleanup_witness :
  tasks (exec (open SESSION 2%nat (Some SESSION)) reconnecting) !! 1%nat =
    Some {| coro := CleanRoom 1; state := Cancelled |}.
Proof.
  refine (proj1 (proj2 (proj2
    (cleanup_scheduled_by_last_client_and_cancelled_by_attach
       SESSION live 1%nat _ 0%nat _ _ reconnecting 2%nat _ _ _ 1%nat
       _ _ _ _ _ (Some SESSION) _ _ _ _ _ _ _ _ _ _ _ _ _))));
    vm_compute; reflexivity.
Defined.

(** C7 on the scenario: the notebook's file opened as text while the
    notebook's room is live. *)
Lemma conflict_witness :
  result (initialize 4%nat (url as_text) (Some 60) (Some 1)) live = Ok tt.
Proof.
  refine (proj1 (conflicting_identity_connects_with_a_warning
                   4%nat (url as_text) (Some 60) (Some 1) live
                   "text" "file" "abc" "nb.ipynb" _ _ _ _));
    vm_compute; (reflexivity || discriminate).
Defined.

(** C10 on the scenario: handler 3 opens the lobby without a session
    id. *)
Lemma transient_witness :
  result (open SESSION 3%nat None) in_lobby = Ok tt.
Proof.
  refine (proj1 (transient_room_accepts_any_session
                   SESSION 3%nat None in_lobby _ 0%nat _ _ _ _ _ _));
    vm_compute; reflexivity.
Defined.

(** On the scenario: the frame in which alice joins. *)
Lemma awareness_witness :
  result (on_message 1%nat (x01 :: join_payload)) live = Ok false.
Proof.
  refine (proj1 (awareness_frame_updates_directory_and_is_queued
                   1%nat x01 join_payload live _ 0%nat _ _ _ _ _ _ _ _ _));
    vm_compute; reflexivity.
Defined.



(** C9 on the scenario: an empty frame for handler 1. *)
Lemma empty_frame_witness :
  on_message 1%nat [] live = (Raise IndexError, live).
Proof.
  refine (proj1 (empty_frame_is_never_queued 1%nat [] live _ _));
    vm_compute; reflexivity.
Defined.

(** The fake file id manager keeps the contract of the session endpoint. *)
#[export] Instance fake_contract : FileIdContract (F := FileIds).
Proof.
  split.
  - intros m m' p i. cbn. case_bool_decide as Hp; [|done].
    unfold id_of. destruct (find_path (records m) p) as [i0|] eqn:Hi.
    + intros [= <- <-]. unfold id_of. by rewrite bool_decide_eq_true_2.
    + intros [= <- <-]. cbn. rewrite bool_decide_eq_true_2 by done.
      unfold id_of. cbn. by rewrite String.eqb_refl.
  - intros m m' p. cbn. case_bool_decide; [|by intros [= <-]].
    by destruct (id_of m p).
Defined.

(** C5 on the scenario: the first call for the notebook's path. *)
Lemma session_witness :
  put SESSION quoted request "nb.ipynb" disk =
    (Ok {| status := 201;
           data := session_data SESSION (JStr "json") (JStr "notebook") "id" |},
     {| on_disk := on_disk disk; records := [("id", "nb.ipynb")] |}).
Proof.
  refine (proj1 (proj1 (session_endpoint_statuses SESSION quoted
                          request "nb.ipynb" disk _ _ _ _ _) _ _ _));
    vm_compute; reflexivity.
Defined.

(** C9, counterexample. An empty frame is not enqueued by [on_message],
    and is not handled as the closing of the connection is: [on_message]
    raises [IndexError] on it and the queue stays as it was, whereas
    [on_close] returns and queues the empty entry. *)
Lemma empty_frame_differs_from_close :
  result (on_message 1%nat []) live = Raise IndexError ∧
  _message_queue <$> handlers (exec (on_message 1%nat []) live) !! 1%nat =
    Some [] ∧
  result (on_close 1%nat) live = Ok tt ∧
  _message_queue <$> handlers (exec (on_close 1%nat) live) !! 1%nat =
    Some [[]].
Proof. vm_compute. done. Qed.

(** C2, the run that departs from the claim. A first connection to the
    notebook with a session id that is not the server's: [open] closes the
    connection with code 1003 and goes on. The room is initialised and the
    "New client connected." event is emitted after the closing; the serve
    task created before the check makes the handler a client of the room
    and relays its next frame; and such a connection cancels a pending
    cleanup of the room. *)
Theorem stale_session_still_reaches_the_room :
  let opened_stale :=
    exec (initialize 1%nat (url notebook) (Some 60) (Some 1);;
          open SESSION 1%nat (Some "stale")) start in
  let served :=
    exec (run_task 0%nat;;
          on_message 1%nat [x00; x01];;
          run_task 0%nat) opened_stale in
  SESSION ≠ "stale" ∧
  trace opened_stale =
    [Close 1 1003 "Document session stale expired";
     Emit {| level := INFO; event_room := notebook;
             event_path := Some "nb.ipynb"; action := Some "initialize";
             msg := Some "New client connected." |}] ∧
  is_document <$> heap opened_stale !! 0%nat = Some true ∧
  match variant <$> heap opened_stale !! 0%nat with
  | Some (DocumentRoom d) => ready d = true
  | _ => False
  end ∧
  clients <$> heap served !! 0%nat = Some [1%nat] ∧
  relayed <$> heap served !! 0%nat = Some [(1%nat, [x00; x01])] ∧
  tasks reconnecting !! 1%nat =
    Some {| coro := CleanRoom 1; state := Sleeping 60 |} ∧
  tasks (exec (open SESSION 2%nat None) reconnecting) !! 1%nat =
    Some {| coro := CleanRoom 1; state := Cancelled |}.
Proof. vm_compute. split_and!; done. Qed.

(** C3, the run that departs from the claim. [on_close] overwrites
    [room.cleaner] without looking at the task it holds, and tests the
    client list before the serve tasks have brought it up to date. In
    [two_cleaners] two cleanup tasks of the notebook's room sleep and the
    room knows the second only. Handler 3 attaches ten seconds later,
    well before the grace period is over: [open] cancels the second task,
    the first one fires at its time, unregisters the room and stops it
    while handler 3 is its client, and the next connection gets a second
    room for the same notebook. And when the last two clients close in
    one turn, neither [on_close] finds its handler alone in the list: no
    cleanup is scheduled for the room they leave empty. *)
Theorem overwritten_cleaner_destroys_a_room_in_use :
  let second_room :=
    exec (initialize 4%nat (url notebook) (Some 60) (Some 1))
      destroyed_in_use in
  tasks two_cleaners !! 2%nat =
    Some {| coro := CleanRoom 1; state := Sleeping 60 |} ∧
  tasks two_cleaners !! 3%nat =
    Some {| coro := CleanRoom 2; state := Sleeping 60 |} ∧
  clients <$> heap two_cleaners !! 0%nat = Some [] ∧
  match variant <$> heap two_cleaners !! 0%nat with
  | Some (DocumentRoom d) => cleaner d = Some 3%nat
  | _ => False
  end ∧
  now came_back = 10 ∧
  tasks came_back !! 3%nat =
    Some {| coro := CleanRoom 2; state := Cancelled |} ∧
  tasks came_back !! 2%nat =
    Some {| coro := CleanRoom 1; state := Sleeping 60 |} ∧
  clients <$> heap came_back !! 0%nat = Some [3%nat] ∧
  registered came_back notebook = Some 0%nat ∧
  now destroyed_in_use = 60 ∧
  registered destroyed_in_use notebook = None ∧
  clients <$> heap destroyed_in_use !! 0%nat = Some [3%nat] ∧
  room <$> handlers destroyed_in_use !! 3%nat = Some (Some 0%nat) ∧
  number_of_subscriptions <$> file_loaders came_back !! notebook =
    Some 1%nat ∧
  number_of_subscriptions <$> file_loaders destroyed_in_use !! notebook =
    Some 0%nat ∧
  registered second_room notebook = Some 1%nat ∧
  room <$> handlers second_room !! 3%nat = Some (Some 0%nat) ∧
  clients <$> heap both_closed !! 0%nat = Some [] ∧
  registered both_closed notebook = Some 0%nat ∧
  tasks both_closed =
    [{| coro := Serve 1; state := Done |};
     {| coro := Serve 2; state := Done |}] ∧
  match variant <$> heap both_closed !! 0%nat with
  | Some (DocumentRoom d) => cleaner d = None
  | _ => False
  end.
Proof. vm_compute. split_and!; done. Qed.

(** C6, the run that departs from the claim. The directory update runs
    before the frame is queued and is not guarded. An awareness frame in
    which participant 9 joins with a state [{"user": {}}] makes
    [u["user"]["name"]] raise [KeyError]: the frame is not queued and
    the count of patches stays. And the update pairs the i-th added
    participant with the i-th state of the frame: when bob's update comes
    before alice's joining as participant 7 in one frame, 7 is recorded
    as bob. *)
Theorem directory_update_blocks_the_relay :
  let refused := exec (on_message 1%nat (x01 :: nameless_payload)) live in
  let mixed :=
    exec (on_message (Awareness0 := awareness_of_crowd) 1%nat
            (x01 :: update_and_join_payload)) live in
  is_awareness x01 = true ∧
  get_changes tt nameless_payload =
    (inr {| added := [9%N]; removed := []; states := [nameless] |}, tt) ∧
  result (on_message 1%nat (x01 :: nameless_payload)) live =
    Raise (KeyError "name") ∧
  _message_queue <$> handlers refused !! 1%nat = Some [] ∧
  ypatch_nb (websocket_server refused) = ypatch_nb (websocket_server live) ∧
  get_changes (Awareness := awareness_of_crowd) tt update_and_join_payload =
    (inr {| added := [7%N]; removed := []; states := [bob; alice] |}, tt) ∧
  connected_users (websocket_server mixed) !! 7%N = Some (JStr "bob").
Proof. vm_compute. split_and!; done. Qed.

(** C4, the run that departs from the claim. The grace period of the
    notebook's room is over and its loader has no subscription left: the
    cleanup task unregisters the room, drops the handler's reference and
    emits "Room deleted.", then fails on [del self.files[...]]; the loader
    stays in the mapping and "Loader deleted." is never emitted. *)
Theorem cleanup_leaves_the_idle_loader :
  let fired := exec (run_task 1%nat) expired in
  tasks expired !! 1%nat =
    Some {| coro := CleanRoom 1; state := Sleeping 60 |} ∧
  now expired = 60 ∧
  rooms (websocket_server expired) !! notebook = Some 0%nat ∧
  number_of_subscriptions <$> file_loaders expired !! notebook = Some 0%nat ∧
  rooms (websocket_server fired) !! notebook = None ∧
  room <$> handlers fired !! 1%nat = Some None ∧
  tasks fired !! 1%nat =
    Some {| coro := CleanRoom 1; state := Failed (AttributeError "files") |} ∧
  number_of_subscriptions <$> file_loaders fired !! notebook = Some 0%nat ∧
  drop 2 (trace fired) =
    [Log "info" "Deleting Y document from memory: %s";
     Log "info" "Room %s deleted";
     Emit {| level := INFO; event_room := notebook;
             event_path := Some "nb.ipynb"; action := Some "clean";
             msg := Some "Room deleted." |};
     Log "info" "Deleting file %s"].
Proof. vm_compute. split_and!; done. Qed.

(** With the cleanup delay disabled the room of the notebook is never
    destroyed: the cleanup task ends in its first turn and the room stays
    registered however long the server waits. *)
Example disabled_cleanup_keeps_the_room :
  let closed :=
    exec (initialize 1%nat (url notebook) None (Some 1);;
          open SESSION 1%nat (Some SESSION);;
          run_task 0%nat;;
          on_close 1%nat;;
          run_task 0%nat) start in
  tasks (exec (run_task 1%nat) closed) !! 1%nat =
    Some {| coro := CleanRoom 1; state := Done |} ∧
  rooms (websocket_server (wait_and_run 1%nat [60; 3600; 86400] closed))
    !! notebook = Some 0%nat.
Proof. vm_compute. done. Qed.

(** The frames of [traffic] as the relay loop of handler 1 sees them. *)
Example traffic_is_relayed_in_order :
  yielded (relay 1%nat traffic live).2 = [[x00; x01]; x01 :: join_payload] ∧
  ended (relay 1%nat traffic live).2 = true ∧
  arrived (relay 1%nat traffic live).2 =
    [[x00; x01]; x01 :: join_payload; []; [x00; x02]].
Proof. vm_compute. done. Qed.

(** The directory after alice joins and after she leaves. *)
Example alice_joins_and_leaves :
  let joined := exec (on_message 1%nat (x01 :: join_payload)) live in
  let left := exec (on_message 1%nat (x01 :: leave_payload)) joined in
  connected_users (websocket_server joined) !! 7%N = Some (JStr "alice") ∧
  connected_users (websocket_server left) !! 7%N = None ∧
  _message_queue <$> handlers left !! 1%nat =
    Some [x01 :: join_payload; x01 :: leave_payload].
Proof. vm_compute. done. Qed.

(** The session endpoint on the scenario's disk: created, found again,
    not found. *)
Example session_endpoint_runs :
  let created := put SESSION quoted request "nb.ipynb" disk in
  (status <$> match created.1 with Ok a => Some a | _ => None end) = Some 201 ∧
  (put_again SESSION quoted 2 request "nb.ipynb" created.2).1 =
    replicate 2 (Ok {| status := 200;
                       data := session_data SESSION (JStr "json")
                                 (JStr "notebook") "id" |}) ∧
  put SESSION quoted request "gone.txt" disk =
    (Raise (HTTPError 404 "File 'gone.txt' does not exist"), disk).
Proof. vm_compute. done. Qed.

(** ** Further runs on the scenario server *)

(** X2 on the scenario: a first connection for an unknown file id. *)
Lemma unresolved_file_id_witness :
  result (initialize 1%nat (url unknown) (Some 60) (Some 1)) start =
    Raise TypeError.
Proof.
  refine (proj1 (unresolved_file_id_raises_after_the_loader_lookup
                   1%nat (url unknown) (Some 60) (Some 1) start
                   "json" "notebook" "zzz" _ _ _));
    (vm_compute; reflexivity).
Defined.

(** X3 on the scenario: handler 2 arrives at the live notebook. *)
Lemma registered_identity_witness :
  result (initialize 2%nat (url notebook) (Some 60) (Some 1)) live = Ok tt.
Proof.
  refine (proj1 (registered_identity_is_joined_silently
                   2%nat (url notebook) (Some 60) (Some 1) live 0%nat _));
    (vm_compute; reflexivity).
Defined.

(** X4 on the scenario: the lobby on the server at its start. *)
Lemma transient_identity_witness :
  result (initialize 3%nat (url lobby) (Some 60) (Some 1)) start = Ok tt.
Proof.
  refine (proj1 (transient_identity_always_connects
                   3%nat (url lobby) (Some 60) (Some 1) start _ _));
    (vm_compute; (reflexivity || lia)).
Defined.

(** X5 on the scenario: the frame waiting in the queue of handler 1. *)
Lemma recv_witness :
  result (__anext__ 1%nat) busy = Ok [x00; x01].
Proof.
  refine (proj1 (proj2 (proj2
            (recv_returns_what_the_iterator_takes 1%nat busy busy_handler _)))
            _);
    (vm_compute; (reflexivity || discriminate)).
Defined.

(** X6 on the scenario: the traffic on the connection of handler 1. *)
Lemma patch_counter_witness :
  ∃ h', handlers (relay 1%nat traffic live).1 !! 1%nat = Some h' ∧
    ypatch_nb (websocket_server (relay 1%nat traffic live).1) =
      ypatch_nb (websocket_server live) +
      Z.of_nat (length (filter (λ m, m ≠ [])
                          (consumed (relay 1%nat traffic live).2 ++
                           _message_queue h'))).
Proof.
  refine (patch_counter_counts_the_queued_frames 1%nat traffic live
            (connected notebook 0 (Some 60)) _ _);
    (vm_compute; reflexivity).
Defined.

(** X7 on the scenario: participants 7 and 9 join in one frame. *)
Lemma nameless_user_witness :
  result (on_message (Awareness0 := awareness_of_crowd) 1%nat
            (x01 :: crowd_payload)) live = Raise (KeyError "name").
Proof.
  refine (proj1 (nameless_user_leaves_the_directory_half_updated
                   (Awareness0 := awareness_of_crowd)
                   1%nat x01 crowd_payload live _ 0%nat _ _ _ 1%nat
                   nameless [] _ _ _ _ _ _ _ _ _ _));
    (vm_compute; (reflexivity || lia)).
Defined.

(** X8 on the scenario: alice joins and leaves. *)
Lemma join_then_leave_witness :
  connected_users (websocket_server
    (exec (on_message 1%nat (x01 :: join_payload);;
           on_message 1%nat (x01 :: leave_payload)) live)) =
  connected_users (websocket_server live).
Proof.
  refine (proj1 (join_then_leave_restores_the_directory
                   1%nat x01 join_payload x01 leave_payload live
                   _ 0%nat _
                   {| added := [7%N]; removed := []; states := [alice] |} tt
                   {| added := []; removed := [7%N]; states := [] |} tt
                   _ _ _ _ _ _ _ _ _ _ _ _));
    (vm_compute; reflexivity).
Defined.

(** X9 on the scenario: the session the endpoint gives for the notebook
    opens the notebook's room. *)
Lemma issued_session_witness :
  ∃ sid, result (open SESSION 1%nat (Some sid)) knocking = Ok tt.
Proof.
  refine (match issued_session_is_accepted SESSION quoted request "nb.ipynb"
                  disk _ _ 1%nat knocking _ 0%nat _ _ "json" "notebook" "abc"
                  _ _ _ _ _ _ with
          | ex_intro _ sid (conj _ (conj _ (conj H _))) => ex_intro _ sid H
          end);
    (vm_compute; reflexivity).
Defined.

(** X10 on the scenario: the lobby. *)
Lemma transient_cleanup_witness :
  _clean_room 3%nat in_lobby = (Raise AssertionError, in_lobby).
Proof.
  refine (proj1 (proj2 (transient_room_is_never_cleaned
                          3%nat in_lobby _ 0%nat _ _ _ _ _)));
    (vm_compute; reflexivity).
Defined.

(** X12 on the scenario: handler 2 arrives after the cleanup. *)
Lemma reconnection_witness :
  result (initialize 2%nat (url notebook) (Some 60) (Some 1))
    (exec (_clean_room_resumed 1%nat) due) = Ok tt.
Proof.
  refine (proj1 (proj2 (reconnection_after_cleanup_builds_a_new_room
                          1%nat due (connected notebook 0 (Some 60)) 0%nat _
                          "json" "notebook" "abc"
                          "nb.ipynb" 2%nat (url notebook) (Some 60) (Some 1)
                          _ _ _ _ _ _ _)));
    (vm_compute; reflexivity).
Defined.

(** X13 on the scenario: an unauthenticated caller for the notebook. *)
Lemma unauthenticated_get_witness :
  result (get upgraded 1%nat None) knocking = Raise (HTTPError 403 "").
Proof.
  refine (proj1 (unauthenticated_get_leaves_the_room_registered
                   upgraded 1%nat (url notebook) (Some 60) (Some 1) start _));
    (vm_compute; reflexivity).
Defined.

(** X14 on the scenario: a frame for a client that is gone. *)
Lemma send_witness :
  result (send closed_socket 1%nat [x00; x01]) live = Ok tt.
Proof.
  refine (proj1 (send_drops_a_failed_write
                   closed_socket 1%nat [x00; x01] live _));
    (vm_compute; discriminate).
Defined.

(** X15 on the scenario: a body without ["type"] for a file on disk that
    is not indexed yet. *)
Lemma malformed_body_witness :
  ∃ e, put SESSION quoted partial_request "notes.md" disk = (Raise e, disk) ∧
       (e = TypeError ∨ e = KeyError "format" ∨ e = KeyError "type").
Proof.
  refine (malformed_body_fails_before_indexing SESSION quoted
            partial_request "notes.md" disk (or_intror _)).
  intros v. vm_compute. discriminate.
Defined.

(** X16 on the scenario: the first call for the notebook's path. *)
Lemma indexed_id_witness :
  ∃ idx, get_id (put SESSION quoted request "nb.ipynb" disk).2 "nb.ipynb" =
           Some idx.
Proof.
  refine (match put_answers_the_indexed_id SESSION quoted request "nb.ipynb"
                  disk _ _ _ with
          | ex_intro _ idx (conj _ (conj H _)) => ex_intro _ idx H
          end);
    (vm_compute; reflexivity).
Defined.

(** The crowd frame on the live notebook: alice is in the directory, the
    nameless participant is not, and the frame is not queued. *)
Example crowd_frame_is_half_applied :
  let w := exec (on_message (Awareness0 := awareness_of_crowd) 1%nat
                   (x01 :: crowd_payload)) live in
  connected_users (websocket_server w) !! 7%N = Some (JStr "alice") ∧
  connected_users (websocket_server w) !! 9%N = None ∧
  _message_queue <$> handlers w !! 1%nat = Some [] ∧
  ypatch_nb (websocket_server w) = 0.
Proof. vm_compute. done. Qed.

(** The cleanup of the notebook's room releases the room's subscription,
    finds the loader without one and fails on [self.files]; handler 2 then
    gets room 1, a new room, while room 0 stays in memory. *)
Example reconnection_runs :
  let w := exec (run_task 1%nat;;
                 initialize 2%nat (url notebook) (Some 60) (Some 1)) due in
  rooms (websocket_server w) !! notebook = Some 1%nat ∧
  length (heap w) = 2%nat ∧
  tasks w !! 1%nat =
    Some {| coro := CleanRoom 1; state := Failed (AttributeError "files") |}.
Proof. vm_compute. done. Qed.
